(** * The multimodal web surfer agent, as a trace-producing program

    A shallow embedding of
    [autogen/agentchat/contrib/multimodal_web_surfer/multimodal_web_surfer.py].

    The agent is sequential glue around three external collaborators: a
    browser page (playwright), a chat-completion client and a handful of
    library helpers.  The embedding keeps the glue and makes the
    collaborators explicit:

    - every call that leaves the module (a page method, a locator method,
      the client, the file system, the logger, PIL) is an _operation_
      [Op X] answered by the _world_ with a value of type [X] or with an
      exception; the world sees the whole history of the turn, so its
      answers may change after an action has been performed;
    - a run of a method is the list of events (operation and answer) it
      produced, together with the value it returned or the exception it
      raised;
    - deterministic library functions whose code lives outside this file
      ([quote_plus], [count_token], [content_str], [json.loads],
      [base64.b64encode]) are the fields of a [Library] record, a variable
      of the development.

    Modelling conventions.  Python [str] values are Rocq strings (bytes);
    the white-space class is the ASCII one.  JavaScript numbers of the
    viewport are integers ([Z]); the coordinates of a bounding box are
    rationals.  Operations address the agent's current page [self._page]:
    the page adopted by [_on_new_page] is the one answered by the latest
    successful [ExpectPopup]. *)

From Stdlib Require Import List String Ascii ZArith QArith Bool Lia.
From Stdlib Require Import DecimalString.
Import ListNotations.

Local Open Scope string_scope.
Local Open Scope Z_scope.

(* ===================================================================== *)
(** ** Python strings *)
(* ===================================================================== *)

Module Py.

(** The line feed and the double quote, which a string literal cannot hold. *)
Definition nl : string := String (ascii_of_nat 10) EmptyString.
Definition dq : string := String (ascii_of_nat 34) EmptyString.

(** [s.startswith(p)]. *)
Definition startswith (s p : string) : bool := String.prefix p s.

(** [s.startswith((p1, p2, ...))]: a tuple of prefixes. *)
Definition startswith_any (s : string) (ps : list string) : bool :=
  existsb (startswith s) ps.

(** [c in s] for a one-character string [c]. *)
Fixpoint contains_char (c : ascii) (s : string) : bool :=
  match s with
  | EmptyString => false
  | String a s' => if Ascii.eqb a c then true else contains_char c s'
  end.

(** [str.isspace] on ASCII: TAB, LF, VT, FF, CR, FS, GS, RS, US and space. *)
Definition is_space (a : ascii) : bool :=
  let n := nat_of_ascii a in
  ((9 <=? n)%nat && (n <=? 13)%nat) || ((28 <=? n)%nat && (n <=? 32)%nat).

Fixpoint lstrip (s : string) : string :=
  match s with
  | EmptyString => EmptyString
  | String a s' => if is_space a then lstrip s' else s
  end.

(** Removes trailing white space: a character is kept when it is not white
    space or when something is kept after it. *)
Fixpoint rstrip (s : string) : string :=
  match s with
  | EmptyString => EmptyString
  | String a s' =>
      match rstrip s' with
      | EmptyString => if is_space a then EmptyString else String a EmptyString
      | r => String a r
      end
  end.

(** [s.strip()]. *)
Definition strip (s : string) : string := rstrip (lstrip s).

(** [str(n)] for an integer. *)
Definition str_of_Z (z : Z) : string := NilZero.string_of_int (Z.to_int z).

(** [str(b)] for a boolean. *)
Definition str_of_bool (b : bool) : string := if b then "True" else "False".

(** [sep.join(l)]. *)
Definition join (sep : string) (l : list string) : string := String.concat sep l.

(** Truthiness of a string: non-empty. *)
Definition truthy (s : string) : bool :=
  match s with EmptyString => false | _ => true end.

(** [re.sub(r"\s+", " ", s, count)]: the first [count] maximal runs of white
    space are each replaced by one space; [count = 0] replaces them all.
    [budget] is [None] for no limit, and [Some n] when [n] runs may still
    be replaced. *)
Fixpoint sub_spaces (budget : option nat) (in_run : bool) (s : string) : string :=
  match s with
  | EmptyString => EmptyString
  | String a s' =>
      if is_space a then
        if in_run then sub_spaces budget true s'
        else
          match budget with
          | Some O => s
          | Some (S n) => String " " (sub_spaces (Some n) true s')
          | None => String " " (sub_spaces None true s')
          end
      else String a (sub_spaces budget false s')
  end.

Definition re_sub_spaces (count : nat) (s : string) : string :=
  sub_spaces (match count with O => None | _ => Some count end) false s.

(** [re.DOTALL], the integer the flag stands for. *)
Definition re_DOTALL : nat := 16.

(** [re.split(r"([\r\n]+)", s)]: the text is cut at every maximal run of
    carriage returns and line feeds, and the runs themselves are kept
    (the pattern's group), so the pieces alternate text, run, text, ...,
    starting and ending with a text piece that may be empty. *)
Definition is_eol (a : ascii) : bool :=
  let n := nat_of_ascii a in (n =? 10)%nat || (n =? 13)%nat.

(** [split_eol cur in_run s]: [cur] is the piece being read, reversed
    into place by appending; [in_run] says whether it is a run of line
    ends. *)
Fixpoint split_eol (cur : string) (in_run : bool) (s : string) : list string :=
  match s with
  | EmptyString => if in_run then [cur; EmptyString] else [cur]
  | String a s' =>
      let c := String a EmptyString in
      if is_eol a then
        if in_run then split_eol (cur ++ c) true s'
        else cur :: split_eol c true s'
      else
        if in_run then cur :: split_eol c false s'
        else split_eol (cur ++ c) false s'
  end.

Definition re_split_eol (s : string) : list string := split_eol EmptyString false s.

(** [os.path.join(a, b)] for a relative [b] on a POSIX system. *)
Fixpoint ends_with_slash (s : string) : bool :=
  match s with
  | EmptyString => false
  | String a EmptyString => Ascii.eqb a "/"%char
  | String _ s' => ends_with_slash s'
  end.

Definition path_join (a b : string) : string :=
  if truthy a then (if ends_with_slash a then a ++ b else a ++ "/" ++ b) else b.

End Py.

(* ===================================================================== *)
(** ** Exceptions and results *)
(* ===================================================================== *)

(** The exception classes the module tells apart.  [ValueError] carries
    [str(e)]; [TimeoutError] is playwright's; the next three are raised by
    the module's own expressions on ill-typed or degenerate data;
    [ExternalError] stands for any other class an external call raises. *)
Inductive exn : Type :=
| ValueError (msg : string)
| TimeoutError
| AttributeError
| TypeError
| ZeroDivisionError
| ExternalError (cls : string).

Inductive result (A : Type) : Type :=
| Returns (a : A)
| Raises (e : exn).

Arguments Returns {A} a.
Arguments Raises {A} e.

Definition returns {A} (r : result A) : bool :=
  match r with Returns _ => true | Raises _ => false end.

(* ===================================================================== *)
(** ** Data exchanged with the collaborators *)
(* ===================================================================== *)

(** What [MultimodalWebSurfer.getVisualViewport()] answers, restricted to
    the three keys the agent reads. *)
Record viewport : Type := {
  pageTop : Z;
  height : Z;
  scrollHeight : Z
}.

(** One entry of [MultimodalWebSurfer.getInteractiveRects()], restricted to
    the keys the agent reads: ["role"], ["aria-name"], ["tag_name"] and
    ["v-scrollable"]. *)
Record rect : Type := {
  role : string;
  aria_name : string;
  tag_name : string;
  v_scrollable : bool
}.

(** The dictionary of interactive elements, keyed by element id. *)
Definition rects : Type := list (string * rect).

Fixpoint rects_get (rs : rects) (key : string) : option rect :=
  match rs with
  | [] => None
  | (k, r) :: rs' => if String.eqb k key then Some r else rects_get rs' key
  end.

(** [locator.bounding_box()]. *)
Record box : Type := {
  box_x : Q;
  box_y : Q;
  box_width : Q;
  box_height : Q
}.

(** An image: the bytes of a screenshot, or a PIL image, identified by its
    PNG encoding. *)
Inductive picture : Type :=
| RawBytes (b : string)
| PilImage (png : string).

(** The tool descriptions of [tool_definitions.py]. *)
Inductive Tool : Type :=
| TOOL_VISIT_URL
| TOOL_WEB_SEARCH
| TOOL_HISTORY_BACK
| TOOL_PAGE_UP
| TOOL_PAGE_DOWN
| TOOL_CLICK
| TOOL_TYPE
| TOOL_SCROLL_ELEMENT_DOWN
| TOOL_SCROLL_ELEMENT_UP
| TOOL_SUMMARIZE_PAGE
| TOOL_READ_PAGE_AND_ANSWER.

Definition Tool_eqb (a b : Tool) : bool :=
  match a, b with
  | TOOL_VISIT_URL, TOOL_VISIT_URL
  | TOOL_WEB_SEARCH, TOOL_WEB_SEARCH
  | TOOL_HISTORY_BACK, TOOL_HISTORY_BACK
  | TOOL_PAGE_UP, TOOL_PAGE_UP
  | TOOL_PAGE_DOWN, TOOL_PAGE_DOWN
  | TOOL_CLICK, TOOL_CLICK
  | TOOL_TYPE, TOOL_TYPE
  | TOOL_SCROLL_ELEMENT_DOWN, TOOL_SCROLL_ELEMENT_DOWN
  | TOOL_SCROLL_ELEMENT_UP, TOOL_SCROLL_ELEMENT_UP
  | TOOL_SUMMARIZE_PAGE, TOOL_SUMMARIZE_PAGE
  | TOOL_READ_PAGE_AND_ANSWER, TOOL_READ_PAGE_AND_ANSWER => true
  | _, _ => false
  end.

(** Modelled from the spec: [tool_definitions.py] is not among the sources;
    each description's ["function"]["name"] is the name the dispatch of
    [generate_surfer_reply] compares against (the glossary's visit URL,
    click, type, scroll, search, summarize, go back). *)
Definition tool_name (t : Tool) : string :=
  match t with
  | TOOL_VISIT_URL => "visit_url"
  | TOOL_WEB_SEARCH => "web_search"
  | TOOL_HISTORY_BACK => "history_back"
  | TOOL_PAGE_UP => "page_up"
  | TOOL_PAGE_DOWN => "page_down"
  | TOOL_CLICK => "click"
  | TOOL_TYPE => "input_text"
  | TOOL_SCROLL_ELEMENT_DOWN => "scroll_element_down"
  | TOOL_SCROLL_ELEMENT_UP => "scroll_element_up"
  | TOOL_SUMMARIZE_PAGE => "summarize_page"
  | TOOL_READ_PAGE_AND_ANSWER => "answer_question"
  end.

(** A chat message: ["role"] and ["content"] (other keys of the dictionary
    are carried along unchanged and read nowhere in this module). *)
Inductive content_part : Type :=
| TextPart (text : string)
| ImagePart (url : string).

Inductive msg_content : Type :=
| Text (s : string)
| Parts (ps : list content_part).

Record chat_message : Type := {
  msg_role : string;
  msg_content_of : msg_content
}.

(** [response.choices[0].message]: its [content] and its [tool_calls], each
    call with [function.name] and [function.arguments]. *)
Record tool_call : Type := {
  fn_name : string;
  fn_arguments : string
}.

Record response : Type := {
  content : option string;
  tool_calls : list tool_call
}.

(** A decoded JSON value of a tool call's arguments; [JOther] carries the
    Python [str] of a value of any other shape. *)
Inductive jvalue : Type :=
| JNull
| JBool (b : bool)
| JInt (z : Z)
| JStr (s : string)
| JOther (py_str : string).

Definition jdict : Type := list (string * jvalue).

(** [args.get(key)]: [None] (here [JNull]) when the key is absent. *)
Fixpoint args_get (args : jdict) (key : string) : jvalue :=
  match args with
  | [] => JNull
  | (k, v) :: args' => if String.eqb k key then v else args_get args' key
  end.

(** [str(v)]. *)
Definition str (v : jvalue) : string :=
  match v with
  | JNull => "None"
  | JBool b => Py.str_of_bool b
  | JInt z => Py.str_of_Z z
  | JStr s => s
  | JOther s => s
  end.

(** [str(x)] where [x] is [None] or a string (an f-string field). *)
Definition str_opt (o : option string) : string :=
  match o with None => "None" | Some s => s end.

(** What [generate_surfer_reply] hands back beside [True]: a string, or a
    multimodal message. *)
Inductive reply : Type :=
| ReplyText (s : string)
| ReplyMessage (m : chat_message).

(** The library functions the module calls and this file does not define. *)
Record Library : Type := {
  content_str : msg_content -> string;
  quote_plus : string -> string;
  json_loads : string -> result jdict;
  count_token : string -> Z;
  b64encode : string -> string
}.

(** The agent's configuration after [__init__]: [debug_dir], the
    navigation allow list as a predicate, and the messages recorded for the
    sender. *)
Record Agent : Type := {
  debug_dir : string;
  _navigation_allow_list : string -> bool;
  _oai_messages : list chat_message
}.

(** [__init__], lines 122-130: an allow list given as a list of prefixes
    becomes the predicate "the url starts with one of them". *)
Definition _closure (navigation_allow_list : list string) (url : string) : bool :=
  existsb (fun entry => Py.startswith url entry) navigation_allow_list.

(** Module constants. *)
Definition VIEWPORT_HEIGHT : Z := 900.
Definition VIEWPORT_WIDTH : Z := 1440.
Definition MLM_HEIGHT : Z := 765.
Definition MLM_WIDTH : Z := 1224.

(* ===================================================================== *)
(** ** Operations, events and the world *)
(* ===================================================================== *)

(** The calls that leave the module.  The index is the type of the
    answer.  Times are in milliseconds. *)
Inductive Op : Type -> Type :=
(* the helper script on disk *)
| ReadPageScript : Op string
(* [self._page.evaluate(...)], one constructor per script evaluated *)
| EvaluatePageScript (source : string) : Op unit
| GetInteractiveRects : Op rects
| GetVisualViewport : Op viewport
| GetFocusedElementId : Op (option string)
| GetOuterHTML : Op string
| ScrollBy (dy : Z) : Op unit
| ScrollElement (identifier direction : string) : Op unit
(* other page methods *)
| PageScreenshot : Op string
| PageUrl : Op string
| PageTitle : Op string
| PageGoto (url : string) : Op unit
| PageGoBack : Op unit
| PageWaitForLoadState : Op unit
| PageCookies : Op string
| PageRoute : Op unit
| PageSetViewportSize (w h : Z) : Op unit
| PageAddInitScript : Op unit
| MouseClick (x y : Q) : Op unit
| ExpectPopup (timeout : Z) : Op nat
| KeyboardPress (key : string) : Op unit
(* locators *)
| LocatorWaitFor (selector : string) (timeout : Z) : Op unit
| LocatorBoundingBox (selector : string) : Op (option box)
| LocatorFocus (selector : string) : Op unit
| LocatorFill (selector value : string) : Op unit
(* images and files *)
| AddSetOfMark (screenshot : string) (rs : rects) : Op (picture * list string)
| ImageOpen (bytes : string) : Op picture
| ImageResize (img : picture) (w h : Z) : Op picture
| ImageSave (img : picture) (path : string) : Op unit
| ImageClose (img : picture) : Op unit
| FileWriteBytes (path data : string) : Op unit
(* the markdown converter and the chat-completion client *)
| ConvertStream (html url : string) : Op string
| ClientCreate (messages : list chat_message) (tools : option (list Tool)) : Op response
| ClientExtractText (r : response) : Op string
(* logging, console, clock *)
| LoggingEnabled : Op bool
| LogEvent (name : string) (fields : list (string * string)) : Op unit
| ConsolePrint (text : string) : Op unit
| Sleep (ms : Z) : Op unit.

(** An event: an operation and the world's answer to it. *)
Inductive event : Type :=
| Event {X : Type} (op : Op X) (answer : result X).

Definition trace : Type := list event.

(** The world answers every operation, knowing what happened before. *)
Definition world : Type := forall X : Type, trace -> Op X -> result X.

(* ===================================================================== *)
(** ** The execution monad *)
(* ===================================================================== *)

(** A computation reads the world and the history of the turn, and yields
    the events it added and its outcome. *)
Definition M (A : Type) : Type := world -> trace -> trace * result A.

Definition ret {A} (a : A) : M A := fun _ _ => ([], Returns a).

Definition raise {A} (e : exn) : M A := fun _ _ => ([], Raises e).

Definition bind {A B} (m : M A) (k : A -> M B) : M B :=
  fun w h =>
    let (t1, r1) := m w h in
    match r1 with
    | Returns a => let (t2, r2) := k a w (h ++ t1)%list in ((t1 ++ t2)%list, r2)
    | Raises e => (t1, Raises e)
    end.

Definition call {X} (op : Op X) : M X :=
  fun w h => let r := w X h op in ([Event op r], r).

(** [try: body  except <class>: handler]: [handler e] is [None] when the
    clause does not match [e], which then propagates. *)
Definition try_except {A} (body : M A) (handler : exn -> option (M A)) : M A :=
  fun w h =>
    let (t1, r1) := body w h in
    match r1 with
    | Returns a => (t1, Returns a)
    | Raises e =>
        match handler e with
        | Some m => let (t2, r2) := m w (h ++ t1)%list in ((t1 ++ t2)%list, r2)
        | None => (t1, Raises e)
        end
    end.

(** [if b: m]. *)
Definition when (b : bool) (m : M unit) : M unit := if b then m else ret tt.

Declare Scope surfer_scope.
Delimit Scope surfer_scope with surfer.
Notation "x <- m ;; k" := (bind m (fun x => k))
  (at level 61, m at next level, right associativity) : surfer_scope.
Notation "' pat <- m ;; k" := (bind m (fun x => match x with pat => k end))
  (at level 61, pat pattern, m at next level, right associativity) : surfer_scope.
Notation "m ;; k" := (bind m (fun _ => k))
  (at level 61, right associativity) : surfer_scope.
Local Open Scope surfer_scope.

(** The handlers of the module's [except] clauses. *)
Definition except_all {A} (k : M A) : exn -> option (M A) := fun _ => Some k.

Definition except_TimeoutError {A} (k : M A) : exn -> option (M A) :=
  fun e => match e with TimeoutError => Some k | _ => None end.

Definition except_ValueError {A} (k : string -> M A) : exn -> option (M A) :=
  fun e => match e with ValueError msg => Some (k msg) | _ => None end.

(** An outcome computed without the world, lifted into [M]. *)
Definition lift {A} (r : result A) : M A :=
  match r with Returns a => ret a | Raises e => raise e end.

(** A [return] inside a block: the block either falls through with a
    value or leaves the enclosing method with its result. *)
Inductive flow (A B : Type) : Type :=
| FallThrough (a : A)
| Return (b : B).

Arguments FallThrough {A B} a.
Arguments Return {A B} b.

(* ===================================================================== *)
(** ** The agent's methods *)
(* ===================================================================== *)

Section Surfer.

Variable lib : Library.
Variable self : Agent.

(** [_target_name], lines 272-277. *)
Definition _target_name (target : string) (rs : rects) : option string :=
  match rects_get rs target with
  | Some r => if Py.truthy (aria_name r) then Some (Py.strip (aria_name r)) else None
  | None => None
  end.

(** [if target_name: ... else: ...] on the result of [_target_name]. *)
Definition if_named (target_name : option string) (named : string -> string)
    (unnamed : string) : string :=
  match target_name with
  | Some n => if Py.truthy n then named n else unnamed
  | None => unnamed
  end.

(** [_image_to_data_uri], lines 525-540, for the two kinds of image the
    module passes to it. *)
Definition _image_to_data_uri (image : picture) : string :=
  let image_bytes := match image with RawBytes b => b | PilImage png => png end in
  "data:image/png;base64," ++ b64encode lib image_bytes.

(** [_make_mm_message], lines 542-554, with the default role. *)
Definition _make_mm_message (text_content : string) (image_content : picture) : chat_message :=
  {| msg_role := "user";
     msg_content_of :=
       Parts [TextPart text_content; ImagePart (_image_to_data_uri image_content)] |}.

(** The block opening each of the three getters (lines 557-561, 565-569,
    573-577): the helper script is read and evaluated, and whatever goes
    wrong is ignored. *)
Definition evaluate_page_script : M unit :=
  try_except
    (source <- call ReadPageScript ;; call (EvaluatePageScript source))
    (except_all (ret tt)).

(** [_get_interactive_rects], lines 556-562. *)
Definition _get_interactive_rects : M rects :=
  evaluate_page_script ;; call GetInteractiveRects.

(** [_get_visual_viewport], lines 564-570. *)
Definition _get_visual_viewport : M viewport :=
  evaluate_page_script ;; call GetVisualViewport.

(** [_get_focused_rect_id], lines 572-578. *)
Definition _get_focused_rect_id : M (option string) :=
  evaluate_page_script ;; call GetFocusedElementId.

(** [_get_page_markdown], lines 580-583. *)
Definition _get_page_markdown : M string :=
  html <- call GetOuterHTML ;;
  url <- call PageUrl ;;
  call (ConvertStream html url).

(** [_log_to_console], lines 708-725 (the text is printed uncoloured). *)
Definition _log_to_console (fname : string) (args : jdict) : M unit :=
  let fname := if Py.truthy fname then fname else "[unknown]" in
  let _arg_strs := map (fun a => a ++ "='" ++ str (args_get args a) ++ "'") (map fst args) in
  call (ConsolePrint (Py.nl ++ ">>>>>>>> BROWSER ACTION " ++ fname ++ "("
                        ++ Py.join ", " _arg_strs ++ ")")).

(** [_on_new_page], lines 585-592; [page] becomes [self._page]. *)
Definition _on_new_page (page : nat) : M unit :=
  call PageRoute ;;
  call (PageSetViewportSize VIEWPORT_WIDTH VIEWPORT_HEIGHT) ;;
  call (Sleep 200) ;;
  call PageAddInitScript ;;
  call PageWaitForLoadState ;;
  url <- call PageUrl ;;
  _log_to_console "new_tab" [("url", JStr url)].

(** [_back], [_visit_page], [_page_down], [_page_up], lines 594-604. *)
Definition _back : M unit := call PageGoBack.

Definition _visit_page (url : string) : M unit := call (PageGoto url).

Definition _page_down : M unit := call (ScrollBy (VIEWPORT_HEIGHT - 50)).

Definition _page_up : M unit := call (ScrollBy (- (VIEWPORT_HEIGHT - 50))).

(** The locator of an element id (lines 607 and 626). *)
Definition locator (identifier : string) : string :=
  "[__elementId='" ++ identifier ++ "']".

(** [_click_id], lines 606-623. *)
Definition _click_id (identifier : string) : M unit :=
  let target := locator identifier in
  try_except
    (call (LocatorWaitFor target 100))
    (except_TimeoutError (raise (ValueError "No such element."))) ;;
  bounding <- call (LocatorBoundingBox target) ;;
  try_except
    (match bounding with
     | Some b =>
         call (MouseClick (box_x b + box_width b / (2 # 1))%Q
                          (box_y b + box_height b / (2 # 1))%Q)
     | None => raise TypeError
     end ;;
     page <- call (ExpectPopup 1000) ;;
     _on_new_page page)
    (except_TimeoutError (ret tt)).

(** [_fill_id], lines 625-637. *)
Definition _fill_id (identifier value : string) : M unit :=
  let target := locator identifier in
  try_except
    (call (LocatorWaitFor target 100))
    (except_TimeoutError (raise (ValueError "No such element."))) ;;
  call (LocatorFocus target) ;;
  call (LocatorFill target value) ;;
  call (KeyboardPress "Enter").

(** [_scroll_id], lines 639-654. *)
Definition _scroll_id (identifier direction : string) : M unit :=
  call (ScrollElement identifier direction).

(** The loop of [_summarize_page], lines 659-664: the lines are appended
    to the buffer until one would not fit. *)
Fixpoint accumulate (token_limit : Z) (buffer : string) (lines : list string) : string :=
  match lines with
  | [] => buffer
  | line :: rest =>
      let tokens := count_token lib (buffer ++ line) in
      if tokens + 1024 >? token_limit then buffer
      else accumulate token_limit (buffer ++ line) rest
  end.

(** The prompt of [_summarize_page], lines 691-697. *)
Definition summary_prompt (title : string) (question : option string) (buffer : string) : string :=
  let prompt := "We are visiting the webpage '" ++ title
    ++ "'. Its full-text contents are pasted below, along with a screenshot of the page's current viewport." in
  match question with
  | Some q =>
      prompt ++ " Please summarize the webpage into one or two paragraphs with respect to '"
        ++ q ++ "':" ++ Py.nl ++ Py.nl ++ buffer
  | None =>
      prompt ++ " Please summarize the webpage into one or two paragraphs:"
        ++ Py.nl ++ Py.nl ++ buffer
  end.

(** [_summarize_page], lines 656-706. *)
Definition _summarize_page (question : option string) (token_limit : Z) : M string :=
  page_markdown <- _get_page_markdown ;;
  let buffer := accumulate token_limit "" (Py.re_split_eol page_markdown) in
  let buffer := Py.strip buffer in
  if (String.length buffer =? 0)%nat then ret "Nothing to summarize."
  else
    title <- call PageUrl ;;
    title <- try_except (call PageTitle) (except_all (ret title)) ;;
    screenshot <- call PageScreenshot ;;
    screenshot <- call (ImageOpen screenshot) ;;
    scaled_screenshot <- call (ImageResize screenshot MLM_WIDTH MLM_HEIGHT) ;;
    call (ImageClose screenshot) ;;
    let messages :=
      [ {| msg_role := "system";
           msg_content_of :=
             Text "You are a helpful assistant that can summarize long documents to answer question." |};
        _make_mm_message (summary_prompt title question buffer) scaled_screenshot ] in
    call (ImageClose scaled_screenshot) ;;
    response <- call (ClientCreate messages None) ;;
    extracted_response <- call (ClientExtractText response) ;;
    ret extracted_response.

(** The default of [token_limit]. *)
Definition default_token_limit : Z := 100000.

(* --------------------------------------------------------------------- *)
(** *** [generate_surfer_reply]: building the prompt (lines 286-386) *)
(* --------------------------------------------------------------------- *)

(** Lines 289-295: the messages are cloned, their content flattened to
    text. *)
Definition clone_history (messages : list chat_message) : list chat_message :=
  map (fun m => {| msg_role := msg_role m;
                   msg_content_of := Text (content_str lib (msg_content_of m)) |})
      messages.

(** Lines 344-356: is some visible element scrollable? *)
Definition has_scrollable_elements (rs : rects) (visible_rects : list string) : bool :=
  existsb (fun r => match rects_get rs r with
                    | Some e => v_scrollable e
                    | None => false
                    end) visible_rects.

(** Lines 305-325 and 361-364: the tools handed to the model. *)
Definition offered_tools (vp : viewport) (scrollable_elements : bool) : list Tool :=
  ([TOOL_VISIT_URL; TOOL_HISTORY_BACK; TOOL_CLICK; TOOL_TYPE;
    TOOL_SUMMARIZE_PAGE; TOOL_READ_PAGE_AND_ANSWER]
   ++ (if _navigation_allow_list self "https://www.bing.com/" then [TOOL_WEB_SEARCH] else [])
   ++ (if pageTop vp >? 5 then [TOOL_PAGE_UP] else [])
   ++ (if pageTop vp + height vp + 5 <? scrollHeight vp then [TOOL_PAGE_DOWN] else [])
   ++ (if scrollable_elements then [TOOL_SCROLL_ELEMENT_UP; TOOL_SCROLL_ELEMENT_DOWN] else []))%list.

(** Lines 327-342. *)
Definition focused_hint (rs : rects) (focused : option string) : string :=
  match focused with
  | Some f =>
      if Py.truthy f then
        let name := match rects_get rs f with Some r => aria_name r | None => "" end in
        let name := if Py.truthy name then "(and name '" ++ name ++ "') " else name in
        Py.nl ++ "The "
          ++ match rects_get rs f with Some r => role r | None => "control" end
          ++ " with ID " ++ f ++ " " ++ name ++ "currently has the input focus." ++ Py.nl
      else ""
  | None => ""
  end.

(** Lines 349-356: the actions listed for one element. *)
Definition label_actions (r : rect) : string :=
  let actions :=
    if existsb (String.eqb (role r)) ["textbox"; "searchbox"; "search"]
    then ["'input_text'"] else ["'click'"] in
  let actions :=
    if v_scrollable r
    then (actions ++ ["'scroll_element_up'"; "'scroll_element_down'"])%list
    else actions in
  "[" ++ Py.join "," actions ++ "]".

(** Lines 358-359: the line describing one element. *)
Definition text_label (r : string) (e : rect) : string :=
  Py.nl ++ "   { " ++ Py.dq ++ "id" ++ Py.dq ++ ": " ++ r
    ++ ", " ++ Py.dq ++ "aria-role" ++ Py.dq ++ ": " ++ Py.dq ++ role e ++ Py.dq
    ++ ", " ++ Py.dq ++ "html_tag" ++ Py.dq ++ ": " ++ Py.dq ++ tag_name e ++ Py.dq
    ++ ", " ++ Py.dq ++ "actions" ++ Py.dq ++ ": " ++ Py.dq ++ label_actions e ++ Py.dq
    ++ ", " ++ Py.dq ++ "name" ++ Py.dq ++ ": " ++ Py.dq ++ aria_name e ++ Py.dq ++ " },".

(** Lines 345-359: one line per visible element known to [rects]. *)
Fixpoint text_labels (rs : rects) (visible_rects : list string) : string :=
  match visible_rects with
  | [] => ""
  | r :: rest =>
      match rects_get rs r with
      | Some e => text_label r e ++ text_labels rs rest
      | None => text_labels rs rest
      end
  end.

(** Lines 368-376. *)
Definition text_prompt (url labels hint : string) (tool_names : list string) : string :=
  Py.strip
    (Py.nl ++ "Consider the following screenshot of a web browser, which is open to the page '"
     ++ url
     ++ "'. In this screenshot, interactive elements are outlined in bounding boxes of different colors. Each bounding box has a numeric ID label in the same color. Additional information about each visible label is listed below:"
     ++ Py.nl ++ Py.nl ++ "[" ++ Py.nl ++ labels ++ Py.nl ++ "]" ++ Py.nl ++ hint ++ Py.nl
     ++ "You are to respond to the user's most recent request by selecting an appropriate tool from the provided set of browser tools ("
     ++ Py.join ", " tool_names
     ++ "), or by answering the question directly if possible." ++ Py.nl).

(** [if self.debug_dir: m]. *)
Definition when_debugging (m : M unit) : M unit := when (Py.truthy (debug_dir self)) m.

(** Lines 286-386: the page is observed and the request to the model is
    prepared.  The block yields [rects], the messages and the tools. *)
Definition prepare_request (messages : option (list chat_message))
    : M (rects * list chat_message * list Tool) :=
  let messages := match messages with None => _oai_messages self | Some ms => ms end in
  let history := clone_history messages in
  rs <- _get_interactive_rects ;;
  viewport <- _get_visual_viewport ;;
  screenshot <- call PageScreenshot ;;
  '(som_screenshot, visible_rects) <- call (AddSetOfMark screenshot rs) ;;
  when_debugging
    (call (ImageSave som_screenshot (Py.path_join (debug_dir self) "screenshot.png"))) ;;
  focused <- _get_focused_rect_id ;;
  let tools := offered_tools viewport (has_scrollable_elements rs visible_rects) in
  let tool_names := map tool_name tools in
  url <- call PageUrl ;;
  let prompt :=
    text_prompt url (text_labels rs visible_rects) (focused_hint rs focused) tool_names in
  scaled_screenshot <- call (ImageResize som_screenshot MLM_WIDTH MLM_HEIGHT) ;;
  call (ImageClose som_screenshot) ;;
  when_debugging
    (call (ImageSave scaled_screenshot
             (Py.path_join (debug_dir self) "screenshot_scaled.png"))) ;;
  let history := (history ++ [_make_mm_message prompt scaled_screenshot])%list in
  call (ImageClose som_screenshot) ;;
  ret (rs, history, tools).

(* --------------------------------------------------------------------- *)
(** *** [generate_surfer_reply]: the chosen tool (lines 398-478) *)
(* --------------------------------------------------------------------- *)

(** The search page of a query (lines 406 and 418). *)
Definition bing_search (query : string) : string :=
  "https://www.bing.com/search?q=" ++ quote_plus lib query ++ "&FORM=QBLH".

(** Lines 398-478: the chain of comparisons on the tool's name.  The
    value is [action_description]. *)
Definition dispatch (rs : rects) (name : string) (args : jdict) : M string :=
  if String.eqb name "visit_url" then
    let url := args_get args "url" in
    let action_description := "I typed '" ++ str url ++ "' into the browser address bar." in
    match url with
    | JStr url =>
        (if Py.startswith_any url ["https://"; "http://"; "file://"; "about:"] then
           _visit_page url
         else if Py.contains_char " " url then
           _visit_page (bing_search url)
         else
           _visit_page ("https://" ++ url)) ;;
        ret action_description
    | _ => raise AttributeError
    end
  else if String.eqb name "history_back" then
    _back ;;
    ret "I clicked the browser back button."
  else if String.eqb name "web_search" then
    let query := args_get args "query" in
    let action_description := "I typed '" ++ str query ++ "' into the browser search bar." in
    match query with
    | JStr query => _visit_page (bing_search query) ;; ret action_description
    | _ => raise TypeError
    end
  else if String.eqb name "page_up" then
    _page_up ;;
    ret "I scrolled up one page in the browser."
  else if String.eqb name "page_down" then
    _page_down ;;
    ret "I scrolled down one page in the browser."
  else if String.eqb name "click" then
    let target_id := str (args_get args "target_id") in
    let target_name := _target_name target_id rs in
    let action_description :=
      if_named target_name (fun n => "I clicked '" ++ n ++ "'.") "I clicked the control." in
    _click_id target_id ;;
    ret action_description
  else if String.eqb name "input_text" then
    let input_field_id := str (args_get args "input_field_id") in
    let text_value := str (args_get args "text_value") in
    let input_field_name := _target_name input_field_id rs in
    let action_description :=
      if_named input_field_name
        (fun n => "I typed '" ++ text_value ++ "' into '" ++ n ++ "'.")
        ("I input '" ++ text_value ++ "'.") in
    _fill_id input_field_id text_value ;;
    ret action_description
  else if String.eqb name "scroll_element_up" then
    let target_id := str (args_get args "target_id") in
    let target_name := _target_name target_id rs in
    let action_description :=
      if_named target_name (fun n => "I scrolled '" ++ n ++ "' up.")
        "I scrolled the control up." in
    _scroll_id target_id "up" ;;
    ret action_description
  else if String.eqb name "scroll_element_down" then
    let target_id := str (args_get args "target_id") in
    let target_name := _target_name target_id rs in
    let action_description :=
      if_named target_name (fun n => "I scrolled '" ++ n ++ "' down.")
        "I scrolled the control down." in
    _scroll_id target_id "down" ;;
    ret action_description
  else if String.eqb name "answer_question" then
    let question := str (args_get args "question") in
    _summarize_page (Some question) default_token_limit
  else if String.eqb name "summarize_page" then
    _summarize_page None default_token_limit
  else
    call (LogEvent "Unknown tool" [("error", name)]) ;;
    raise (ValueError ("Unknown tool '" ++ name ++ "'")).

(** Lines 390-396 and what follows inside the [try]: nothing when the
    model called no tool, else the first call is decoded, printed and
    dispatched. *)
Definition run_tool_calls (rs : rects) (message : response) : M string :=
  match tool_calls message with
  | [] => ret ""
  | first :: _ =>
      let name := fn_name first in
      args <- lift (json_loads lib (fn_arguments first)) ;;
      _log_to_console name args ;;
      dispatch rs name args
  end.

(** Lines 391-483: the [try] around the tool call; a [ValueError] ends the
    turn with its text as the reply. *)
Definition act (rs : rects) (message : response) : M (flow string (bool * reply)) :=
  try_except
    (action_description <- run_tool_calls rs message ;;
     ret (FallThrough action_description))
    (except_ValueError (fun e =>
       enabled <- call LoggingEnabled ;;
       when enabled (call (LogEvent "ValueError" [("error", e)])) ;;
       ret (Return (true, ReplyText e)))).

(* --------------------------------------------------------------------- *)
(** *** [generate_surfer_reply]: the observation (lines 485-523) *)
(* --------------------------------------------------------------------- *)

(** [int(part * 100 / whole)], lines 490-491. *)
Definition percent_of (part whole : Z) : result Z :=
  if whole =? 0 then Raises ZeroDivisionError
  else Returns (Z.quot (part * 100) whole).

(** Lines 492-497. *)
Definition position_text (percent_scrolled percent_visible : Z) : string :=
  if percent_scrolled <? 1 then "at the top of the page"
  else if percent_scrolled + percent_visible >=? 99 then "at the bottom of the page"
  else Py.str_of_Z percent_scrolled ++ "% down from the top of the page".

(** The text of the observation, lines 516-521; [re.DOTALL] stands where
    [re.sub] expects its [count]. *)
Definition observation_text (message_content : option string)
    (action_description title url : string)
    (percent_visible : Z) (position : string) : string :=
  Py.strip
    (Py.re_sub_spaces Py.re_DOTALL
       (str_opt message_content ++ Py.nl ++ Py.nl ++ action_description ++ Py.nl ++ Py.nl
        ++ "Here is a screenshot of [" ++ title ++ "](" ++ url ++ "). The viewport shows "
        ++ Py.str_of_Z percent_visible ++ "% of the webpage, and is positioned "
        ++ position ++ ".")).

(** Lines 485-523: the page settles, its viewport is described, a new
    screenshot is taken and the observation is returned. *)
Definition report (message : response) (action_description : string) : M (bool * reply) :=
  call PageWaitForLoadState ;;
  call (Sleep 2000) ;;
  viewport <- _get_visual_viewport ;;
  percent_visible <- lift (percent_of (height viewport) (scrollHeight viewport)) ;;
  percent_scrolled <- lift (percent_of (pageTop viewport) (scrollHeight viewport)) ;;
  let position := position_text percent_scrolled percent_visible in
  new_screenshot <- call PageScreenshot ;;
  when_debugging
    (call (FileWriteBytes (Py.path_join (debug_dir self) "screenshot.png") new_screenshot)) ;;
  enabled <- call LoggingEnabled ;;
  (if enabled then
     cookies <- call PageCookies ;;
     call (LogEvent "cookies" [("cookies", cookies)]) ;;
     page_title <- call PageTitle ;;
     page_url <- call PageUrl ;;
     call (LogEvent "viewport_state"
             [("page_title", page_title); ("page_url", page_url);
              ("percent_visible", Py.str_of_Z percent_visible);
              ("percent_scrolled", Py.str_of_Z percent_scrolled)])
   else ret tt) ;;
  title <- call PageTitle ;;
  url <- call PageUrl ;;
  ret (true,
       ReplyMessage
         (_make_mm_message
            (observation_text (content message) action_description title url
               percent_visible position)
            (RawBytes new_screenshot))).

(** What follows the model's answer (lines 388-523). *)
Definition after_response (rs : rects) (message : response) : M (bool * reply) :=
  outcome <- act rs message ;;
  match outcome with
  | Return reply => ret reply
  | FallThrough action_description => report message action_description
  end.

(** [generate_surfer_reply], lines 279-523. *)
Definition generate_surfer_reply (messages : option (list chat_message)) : M (bool * reply) :=
  '(rs, history, tools) <- prepare_request messages ;;
  response <- call (ClientCreate history (Some tools)) ;;
  after_response rs response.


End Surfer.

(* ===================================================================== *)
(** ** Reading a trace *)
(* ===================================================================== *)

(** A call to [client.create]. *)
Definition is_model_call (e : event) : bool :=
  match e with
  | Event op _ => match op with ClientCreate _ _ => true | _ => false end
  end.

(** How many times [client.create] was called. *)
Definition model_calls (t : trace) : nat := List.length (filter is_model_call t).

(** The message a call to [client.create] answered, if it answered. *)
Definition model_answer (e : event) : option response :=
  match e with
  | Event op answer =>
      match op in Op T return result T -> option response with
      | ClientCreate _ _ =>
          fun a => match a with Returns r => Some r | Raises _ => None end
      | _ => fun _ => None
      end answer
  end.

(** The name of the first tool call of the first answer of the model:
    the tool selected for the turn. *)
Fixpoint selected_tool (t : trace) : option string :=
  match t with
  | [] => None
  | e :: t' =>
      match model_answer e with
      | Some r => match tool_calls r with
                  | first :: _ => Some (fn_name first)
                  | [] => None
                  end
      | None => if is_model_call e then None else selected_tool t'
      end
  end.

(** The calls that act on the page: navigation, scrolling, mouse and
    keyboard input, filling a field. *)
Definition is_browser_action (e : event) : bool :=
  match e with
  | Event op _ =>
      match op with
      | PageGoto _ | PageGoBack | ScrollBy _ | ScrollElement _ _
      | MouseClick _ _ | KeyboardPress _ | LocatorFocus _ | LocatorFill _ _ => true
      | _ => false
      end
  end.

(** A screenshot of the page. *)
Definition is_screenshot (e : event) : bool :=
  match e with
  | Event op _ => match op with PageScreenshot => true | _ => false end
  end.

(** The exception an event's call raised, if it raised. *)
Definition failure (e : event) : option exn :=
  match e with
  | Event _ (Raises x) => Some x
  | Event _ (Returns _) => None
  end.


(** The tools that summarize the page. *)
Definition is_summary_tool (name : string) : bool :=
  String.eqb name "answer_question" || String.eqb name "summarize_page".

(** The names the dispatch knows. *)
Definition dispatch_table : list string :=
  ["visit_url"; "history_back"; "web_search"; "page_up"; "page_down"; "click";
   "input_text"; "scroll_element_up"; "scroll_element_down"; "answer_question";
   "summarize_page"].

Definition in_dispatch_table (name : string) : bool :=
  existsb (String.eqb name) dispatch_table.



(** The protocols a url may start with (line 402). *)
Definition has_protocol (url : string) : Prop :=
  exists p rest, In p ["https://"; "http://"; "file://"; "about:"] /\ url = p ++ rest.

(** The url contains a space (line 405). *)
Definition has_space (url : string) : Prop :=
  exists a b, url = a ++ " " ++ b.

(** The tool lists handed to the model, one per call of [client.create]
    that passes tools. *)
Definition tools_offered (t : trace) : list (list Tool) :=
  flat_map (fun e => match e with
                     | Event op _ =>
                         match op with
                         | ClientCreate _ (Some tools) => [tools]
                         | _ => []
                         end
                     end) t.

(** The markdown texts the converter answered. *)
Definition markdown_read (t : trace) : list string :=
  flat_map (fun e => match e with
                     | Event op answer =>
                         match op in Op T return result T -> list string with
                         | ConvertStream _ _ =>
                             fun a => match a with Returns s => [s] | Raises _ => [] end
                         | _ => fun _ => []
                         end answer
                     end) t.

(** The messages of every call to [client.create], in order. *)
Definition model_requests (t : trace) : list (list chat_message) :=
  flat_map (fun e => match e with
                     | Event op _ =>
                         match op with
                         | ClientCreate messages _ => [messages]
                         | _ => []
                         end
                     end) t.

(** The lines kept by [_summarize_page]: the text of the first [k]. *)
Definition first_lines (k : nat) (lines : list string) : string :=
  String.concat "" (firstn k lines).

(** A call to the markdown converter. *)
Definition is_conversion (e : event) : bool :=
  match e with
  | Event op _ => match op with ConvertStream _ _ => true | _ => false end
  end.

(** The model's answer selects a summary tool. *)
Definition selects_summary (message : response) : bool :=
  match tool_calls message with
  | first :: _ => is_summary_tool (fn_name first)
  | [] => false
  end.

(** What [_summarize_page] would send of a page: the stripped buffer. *)
Definition summary_text (lib : Library) (token_limit : Z) (page_markdown : string) : string :=
  Py.strip (accumulate lib token_limit "" (Py.re_split_eol page_markdown)).

(** Events that neither call the model nor convert the page. *)
Definition is_silent (e : event) : bool :=
  negb (is_model_call e) && negb (is_conversion e).

(** An observation: neither a call to the model nor an action on the
    page. *)
Definition is_observation (e : event) : bool :=
  negb (is_model_call e) && negb (is_browser_action e).



(** The call failed. *)
Definition has_failed (e : event) : bool :=
  match failure e with Some _ => true | None => false end.



(** The exception of the last call of a trace, if that call failed. *)
Fixpoint last_failure (t : trace) : option exn :=
  match t with
  | [] => None
  | [e] => failure e
  | _ :: t' => last_failure t'
  end.

(** The last call of a trace is [locator.wait_for]. *)
Fixpoint ends_with_lookup (t : trace) : bool :=
  match t with
  | [] => false
  | [Event op _] => match op with LocatorWaitFor _ _ => true | _ => false end
  | _ :: t' => ends_with_lookup t'
  end.

(** A call to the logger. *)
Definition is_logging (e : event) : bool :=
  match e with
  | Event op _ =>
      match op with LoggingEnabled | LogEvent _ _ => true | _ => false end
  end.




(** The helper script is read or evaluated. *)
Definition is_page_script (e : event) : bool :=
  match e with
  | Event op _ =>
      match op with ReadPageScript | EvaluatePageScript _ => true | _ => false end
  end.

(** The calls to the model made after the model's answer: at most one,
    and one only by a summary tool; when the block completed with a
    summary tool selected, the markdown [md] of the page was read once and
    the model was called unless the text to summarize is empty. *)
Definition calls_bounded {A} (lib : Library) (summary : bool)
    (completed : result A -> Prop) (t : trace) (r : result A) : Prop :=
  (model_calls t <= 1)%nat
  /\ (model_calls t = 1%nat -> summary = true)
  /\ (completed r -> summary = true ->
      exists md,
        markdown_read t = [md]
        /\ model_calls t =
           if Nat.eqb (String.length (summary_text lib default_token_limit md)) 0
           then 0%nat else 1%nat).

(* ===================================================================== *)
(** ** Reasoning about runs *)
(* ===================================================================== *)

(** [sat m Q]: every run of [m], in every world and after every history,
    has a trace and an outcome related by [Q]. *)
Definition sat {A} (m : M A) (Q : trace -> result A -> Prop) : Prop :=
  forall (w : world) (h : trace), Q (fst (m w h)) (snd (m w h)).

(** [emits P m]: every event of every run of [m] satisfies [P]. *)
Definition emits {A} (P : event -> bool) (m : M A) : Prop :=
  sat m (fun t _ => forallb P t = true).

(** [never_raises m]. *)
Definition never_raises {A} (m : M A) : Prop :=
  sat m (fun _ r => returns r = true).

(* ===================================================================== *)
(** ** A concrete library and concrete worlds *)
(* ===================================================================== *)

Module Scenario.

(** [urllib.parse.quote_plus] on ASCII text: letters, digits and [_.-~]
    are kept, a space becomes [+], any other byte is percent-encoded. *)
Definition hex_digit (n : nat) : ascii :=
  ascii_of_nat (if (n <? 10)%nat then 48 + n else 55 + n).

Definition is_unreserved (a : ascii) : bool :=
  let n := nat_of_ascii a in
  ((48 <=? n) && (n <=? 57) || (65 <=? n) && (n <=? 90) || (97 <=? n) && (n <=? 122)
   || (n =? 95) || (n =? 46) || (n =? 45) || (n =? 126))%nat.

Fixpoint quote_plus_ascii (s : string) : string :=
  match s with
  | EmptyString => EmptyString
  | String a s' =>
      if is_unreserved a then String a (quote_plus_ascii s')
      else if Ascii.eqb a " "%char then String "+"%char (quote_plus_ascii s')
      else
        let n := nat_of_ascii a in
        String "%"%char
          (String (hex_digit (n / 16)) (String (hex_digit (n mod 16)) (quote_plus_ascii s')))
  end.

(** [content_str]: text is kept, an image becomes a placeholder. *)
Definition flatten_content (c : msg_content) : string :=
  match c with
  | Text s => s
  | Parts ps =>
      String.concat ""
        (map (fun p => match p with TextPart s => s | ImagePart _ => "<image>" end) ps)
  end.

(** The argument strings the scenarios use, and how [json.loads] decodes
    them; anything else is malformed. *)
Definition json_field (key value : string) : string :=
  Py.dq ++ key ++ Py.dq ++ ": " ++ Py.dq ++ value ++ Py.dq.

Definition args_empty : string := "{}".
Definition args_url (url : string) : string := "{" ++ json_field "url" url ++ "}".
Definition args_target (id : string) : string := "{" ++ json_field "target_id" id ++ "}".
Definition args_malformed : string := "{".

Definition known_urls : list string :=
  ["https://example.com/a b"; "example.com"; "rocq prover"].

Definition decode_args (s : string) : result jdict :=
  if String.eqb s args_empty then Returns []
  else if String.eqb s (args_target "7") then Returns [("target_id", JStr "7")]
  else
    match find (fun u => String.eqb s (args_url u)) known_urls with
    | Some u => Returns [("url", JStr u)]
    | None =>
        Raises (ValueError
          "Expecting property name enclosed in double quotes: line 1 column 2 (char 1)")
    end.

(** One token per character. *)
Definition count_chars (s : string) : Z := Z.of_nat (String.length s).

Definition lib : Library := {|
  content_str := flatten_content;
  quote_plus := quote_plus_ascii;
  json_loads := decode_args;
  count_token := count_chars;
  b64encode := fun s => "base64(" ++ s ++ ")"
|}.

(** What distinguishes one scenario from another. *)
Record setting : Type := {
  allows_bing : bool;
  page_viewport : viewport;
  page_rects : rects;
  visible : list string;
  model_says : response;
  page_text : string;
  element_appears : bool
}.

Definition agent (s : setting) : Agent := {|
  debug_dir := "/tmp/surfer";
  _navigation_allow_list := fun _ => allows_bing s;
  _oai_messages := [ {| msg_role := "user"; msg_content_of := Text "What is on the page?" |} ]
|}.

(** How many actions the page has seen so far. *)
Definition actions_so_far (h : trace) : nat := List.length (filter is_browser_action h).

(** The world of a setting: every call succeeds, except that the element
    looked up appears only if the setting says so and that no popup ever
    opens.  A screenshot shows how many actions the page has seen. *)
Definition world_of (s : setting) : world :=
  fun X h op =>
    match op in Op T return result T with
    | ReadPageScript => Returns "var MultimodalWebSurfer = {};"
    | EvaluatePageScript _ => Returns tt
    | GetInteractiveRects => Returns (page_rects s)
    | GetVisualViewport => Returns (page_viewport s)
    | GetFocusedElementId => Returns None
    | GetOuterHTML => Returns "<html></html>"
    | ScrollBy _ => Returns tt
    | ScrollElement _ _ => Returns tt
    | PageScreenshot =>
        Returns ("page after " ++ Py.str_of_Z (Z.of_nat (actions_so_far h)) ++ " actions")
    | PageUrl => Returns "https://example.com/"
    | PageTitle => Returns "Example"
    | PageGoto _ => Returns tt
    | PageGoBack => Returns tt
    | PageWaitForLoadState => Returns tt
    | PageCookies => Returns "[]"
    | PageRoute => Returns tt
    | PageSetViewportSize _ _ => Returns tt
    | PageAddInitScript => Returns tt
    | MouseClick _ _ => Returns tt
    | ExpectPopup _ => Raises TimeoutError
    | KeyboardPress _ => Returns tt
    | LocatorWaitFor _ _ => if element_appears s then Returns tt else Raises TimeoutError
    | LocatorBoundingBox _ =>
        Returns (Some {| box_x := 10 # 1; box_y := 20 # 1;
                         box_width := 100 # 1; box_height := 40 # 1 |})
    | LocatorFocus _ => Returns tt
    | LocatorFill _ _ => Returns tt
    | AddSetOfMark shot _ => Returns (PilImage ("marked " ++ shot), visible s)
    | ImageOpen b => Returns (PilImage b)
    | ImageResize img _ _ => Returns img
    | ImageSave _ _ => Returns tt
    | ImageClose _ => Returns tt
    | FileWriteBytes _ _ => Returns tt
    | ConvertStream _ _ => Returns (page_text s)
    | ClientCreate _ (Some _) => Returns (model_says s)
    | ClientCreate _ None =>
        Returns {| content := Some "The page is an example."; tool_calls := [] |}
    | ClientExtractText r => Returns (str_opt (content r))
    | LoggingEnabled => Returns false
    | LogEvent _ _ => Returns tt
    | ConsolePrint _ => Returns tt
    | Sleep _ => Returns tt
    end.

(** A page taller than the viewport, scrolled to the top, with one link. *)
Definition top_of_long_page : viewport :=
  {| pageTop := 0; height := 900; scrollHeight := 2000 |}.

Definition one_link : rects :=
  [("7", {| role := "link"; aria_name := "More information"; tag_name := "a";
            v_scrollable := false |})].

Definition tool (name arguments : string) : response :=
  {| content := Some "On it.";
     tool_calls := [ {| fn_name := name; fn_arguments := arguments |} ] |}.

Definition turn (says : response) : setting := {|
  allows_bing := true;
  page_viewport := top_of_long_page;
  page_rects := one_link;
  visible := ["7"];
  model_says := says;
  page_text := "Example Domain" ++ Py.nl ++ "This domain is for use in examples.";
  element_appears := true
|}.

(** The run of one turn of a setting. *)
Definition play (s : setting) : trace * result (bool * reply) :=
  generate_surfer_reply lib (agent s) None (world_of s) [].


(** A short page that fits the viewport, with Bing off the allow list. *)
Definition turn_on_short_page (says : response) : setting := {|
  allows_bing := false;
  page_viewport := {| pageTop := 0; height := 900; scrollHeight := 900 |};
  page_rects := one_link;
  visible := ["7"];
  model_says := says;
  page_text := "Example Domain";
  element_appears := true
|}.

(** The middle of a long page with a scrollable list. *)
Definition turn_in_mid_page (says : response) : setting := {|
  allows_bing := true;
  page_viewport := {| pageTop := 600; height := 900; scrollHeight := 3000 |};
  page_rects :=
    [("7", {| role := "link"; aria_name := "More information"; tag_name := "a";
              v_scrollable := false |});
     ("9", {| role := "listbox"; aria_name := "Results"; tag_name := "ul";
              v_scrollable := true |})];
  visible := ["7"; "9"];
  model_says := says;
  page_text := "Example Domain";
  element_appears := true
|}.

(** A page without text. *)
Definition turn_on_blank_page (says : response) : setting := {|
  allows_bing := true;
  page_viewport := top_of_long_page;
  page_rects := [];
  visible := [];
  model_says := says;
  page_text := Py.nl ++ "  " ++ Py.nl;
  element_appears := true
|}.




(** The answers of the model used below. *)
Definition says_summarize : response := tool "summarize_page" args_empty.
Definition says_click : response := tool "click" (args_target "7").
Definition says_visit : response := tool "visit_url" (args_url "example.com").
Definition says_unknown : response := tool "open_tab" args_empty.
Definition says_malformed : response := tool "visit_url" args_malformed.

End Scenario.

(* ===================================================================== *)
(** ** More of the module: the constructor's helpers *)
(* ===================================================================== *)

Module PyText.

(** [s.lower()] on ASCII. *)
Definition lower_char (a : ascii) : ascii :=
  let n := nat_of_ascii a in
  if ((65 <=? n) && (n <=? 90))%nat then ascii_of_nat (n + 32) else a.

Fixpoint lower (s : string) : string :=
  match s with
  | EmptyString => EmptyString
  | String a s' => String (lower_char a) (lower s')
  end.

(** [sub in s] for strings. *)
Fixpoint contains (sub s : string) : bool :=
  if String.prefix sub s then true
  else
    match s with
    | EmptyString => false
    | String _ s' => contains sub s'
    end.



End PyText.

(** [browser_channel]: the sentinel [DEFAULT_CHANNEL] (line 44) or a
    name. *)
Inductive channel : Type :=
| DEFAULT_CHANNEL
| Channel (name : string).

(** [launch_args], lines 160-162: the key ["channel"] is set unless the
    channel is the sentinel. *)
Record launch_args : Type := {
  headless : bool;
  channel_arg : option string
}.

Definition make_launch_args (headless : bool) (browser_channel : channel) : launch_args :=
  {| headless := headless;
     channel_arg :=
       match browser_channel with
       | DEFAULT_CHANNEL => None
       | Channel name => Some name
       end |}.

(** Where [self._context] comes from, lines 165-182: a browser launched
    and given a new context, a persistent context, or nothing at all when
    no branch assigns the attribute. *)
Inductive context_source : Type :=
| Launch (browser : string) (args : launch_args)
| LaunchPersistent (browser : string) (browser_data_dir : string) (args : launch_args)
| NoContext.

(** The exception of line 172. *)
Inductive init_error : Type :=
| NotImplementedError (browser_channel : channel).

(** [browser_channel == name]. *)
Definition channel_is (browser_channel : channel) (name : string) : bool :=
  match browser_channel with
  | DEFAULT_CHANNEL => false
  | Channel c => String.eqb c name
  end.

(** Lines 160-182 of [__init__]. *)
Definition choose_context (headless : bool) (browser_channel : channel)
    (browser_data_dir : option string) : context_source + init_error :=
  let launch_args := make_launch_args headless browser_channel in
  match browser_data_dir with
  | None =>
      if channel_is browser_channel "chromium" then inl (Launch "chromium" launch_args)
      else if channel_is browser_channel "firefox" then inl (Launch "firefox" launch_args)
      else inr (NotImplementedError browser_channel)
  | Some dir =>
      if channel_is browser_channel "chromium" then
        inl (LaunchPersistent "chromium" dir launch_args)
      else if channel_is browser_channel "firefox" then
        inl (LaunchPersistent "firefox" dir launch_args)
      else inl NoContext
  end.

(** The arguments a launch was given. *)
Definition launch_args_of (c : context_source) : option launch_args :=
  match c with
  | Launch _ args | LaunchPersistent _ _ args => Some args
  | NoContext => None
  end.

(** What [route.fetch()] answers, restricted to what the handler reads:
    the headers, keyed by their lower-case names; [payload] stands for the
    rest of the response. *)
Record fetched : Type := {
  headers : list (string * string);
  payload : string
}.

(** [headers.get(key, default)]. *)
Fixpoint headers_get (hs : list (string * string)) (key default : string) : string :=
  match hs with
  | [] => default
  | (k, v) :: hs' => if String.eqb k key then v else headers_get hs' key default
  end.

(** The calls the handler makes on the [route] object. *)
Inductive route_call : Type :=
| continue_
| fetch
| fulfill (status : Z) (content_type body : string)
| fulfill_response (response : fetched).

(** The page served in place of a blocked document, lines 142-146. *)
Definition navigation_blocked (start_page : string) : string :=
  "<html><body><h1>Navigation Blocked</h1><p>Navigation was blocked by the client. Click the <a href="
    ++ Py.dq ++ "javascript: history.back()" ++ Py.dq
    ++ ">browser back button</a> to go back, return Home to <a href="
    ++ Py.dq ++ start_page ++ Py.dq ++ ">" ++ start_page ++ "</a>.</p></body></html>".

(** [_route_handler], lines 133-149, for a request to [url]: the calls it
    makes on [route], in order, and its outcome.  [fetch_answer] is what
    [route.fetch()] answers; it is consulted only after the call. *)
Definition _route_handler (self : Agent) (start_page url : string)
    (fetch_answer : result fetched) : list route_call * result unit :=
  if String.eqb url "about:blank" || _navigation_allow_list self url then
    ([continue_], Returns tt)
  else
    match fetch_answer with
    | Raises e => ([fetch], Raises e)
    | Returns response =>
        if PyText.contains "html"
             (PyText.lower (headers_get (headers response) "content-type" ""))
        then ([fetch; fulfill 403 "text/html" (navigation_blocked start_page)], Returns tt)
        else ([fetch; fulfill_response response], Returns tt)
    end.

(** The values [_image_to_data_uri] is documented to take (lines 526-528):
    a bytes string, a PIL image (by its PNG encoding), a [BytesIO] or
    another binary stream (by what is left to read of it). *)
Inductive image_input : Type :=
| FromBytes (b : string)
| FromPil (png : string)
| FromBytesIO (contents : string)
| FromStream (unread : string).

(** A local variable read before it was assigned. *)
Inductive name_error : Type :=
| UnboundLocalError (name : string).

(** [_image_to_data_uri], lines 525-540, on every kind of input: the
    branch for [BytesIO] reads [image_buffer], which only the branch for
    PIL images assigns. *)
Definition image_to_data_uri_of (lib : Library) (image : image_input) : string + name_error :=
  match image with
  | FromPil png => inl ("data:image/png;base64," ++ b64encode lib png)
  | FromBytesIO _ => inr (UnboundLocalError "image_buffer")
  | FromStream unread => inl ("data:image/png;base64," ++ b64encode lib unread)
  | FromBytes b => inl ("data:image/png;base64," ++ b64encode lib b)
  end.

(** The two kinds of image the module itself passes. *)
Definition input_of_picture (p : picture) : image_input :=
  match p with
  | RawBytes b => FromBytes b
  | PilImage png => FromPil png
  end.

(* ===================================================================== *)
(** ** More ways of reading a trace *)
(* ===================================================================== *)

(** Where the mouse was clicked. *)
Definition click_of (e : event) : option (Q * Q) :=
  match e with
  | Event op _ => match op with MouseClick x y => Some (x, y) | _ => None end
  end.

(** How many times the mouse was clicked. *)
Definition clicks (t : trace) : nat :=
  List.length (filter (fun e => match click_of e with Some _ => true | None => false end) t).

(** The key pressed. *)
Definition key_of (e : event) : option string :=
  match e with
  | Event op _ => match op with KeyboardPress key => Some key | _ => None end
  end.

(** The last call of a trace is [locator.bounding_box]. *)
Fixpoint ends_with_bounding_box (t : trace) : bool :=
  match t with
  | [] => false
  | [Event op _] => match op with LocatorBoundingBox _ => true | _ => false end
  | _ :: t' => ends_with_bounding_box t'
  end.

(** The file an event wrote (an image saved, or bytes written). *)
Definition written_file (e : event) : option string :=
  match e with
  | Event op _ =>
      match op with
      | ImageSave _ path => Some path
      | FileWriteBytes path _ => Some path
      | _ => None
      end
  end.

(** The viewports the page answered. *)
Definition viewports_read (t : trace) : list viewport :=
  flat_map (fun e => match e with
                     | Event op answer =>
                         match op in Op T return result T -> list viewport with
                         | GetVisualViewport =>
                             fun a => match a with Returns vp => [vp] | Raises _ => [] end
                         | _ => fun _ => []
                         end answer
                     end) t.



(** [logging_enabled()] answered [True]. *)
Definition says_logging_on (e : event) : bool :=
  match e with
  | Event op answer =>
      match op in Op T return result T -> bool with
      | LoggingEnabled => fun a => match a with Returns b => b | Raises _ => false end
      | _ => fun _ => false
      end answer
  end.

(** The name of the event logged. *)
Definition logged (e : event) : option string :=
  match e with
  | Event op _ => match op with LogEvent name _ => Some name | _ => None end
  end.

(** A log entry other than the report of an unknown tool. *)
Definition logs_more_than_unknown_tool (e : event) : bool :=
  match logged e with
  | Some name => negb (String.eqb name "Unknown tool")
  | None => false
  end.

(** The line printed on the console. *)
Definition printed (e : event) : option string :=
  match e with
  | Event op _ => match op with ConsolePrint text => Some text | _ => None end
  end.

(** A navigation: [page.goto]. *)
Definition goes_to (e : event) : option string :=
  match e with
  | Event op _ => match op with PageGoto url => Some url | _ => None end
  end.

(** The turn reads or writes no file but the two screenshots kept in
    [debug_dir], and none at all when [debug_dir] is empty. *)
Definition writes_only_screenshots (debug_dir : string) (e : event) : bool :=
  match written_file e with
  | Some path =>
      Py.truthy debug_dir
      && (String.eqb path (Py.path_join debug_dir "screenshot.png")
          || String.eqb path (Py.path_join debug_dir "screenshot_scaled.png"))
  | None => true
  end.

(** Nothing in the trace says that logging is on, or nothing is logged
    but unknown tools. *)
Definition logs_only_if_enabled (t : trace) : bool :=
  existsb says_logging_on t || negb (existsb logs_more_than_unknown_tool t).

(* ===================================================================== *)
(** ** More concrete turns *)
(* ===================================================================== *)

Module Scenario2.

(** The model answers in words, calling no tool. *)
Definition says_words : response :=
  {| content := Some "The page is an example."; tool_calls := [] |}.

(** A page that reports no height at all. *)
Definition turn_on_empty_page (says : response) : Scenario.setting := {|
  Scenario.allows_bing := true;
  Scenario.page_viewport := {| pageTop := 0; height := 900; scrollHeight := 0 |};
  Scenario.page_rects := [];
  Scenario.visible := [];
  Scenario.model_says := says;
  Scenario.page_text := "";
  Scenario.element_appears := true
|}.


(** An agent that keeps no debug files. *)
Definition agent_without_debug_dir (s : Scenario.setting) : Agent := {|
  debug_dir := "";
  _navigation_allow_list := fun _ => Scenario.allows_bing s;
  _oai_messages := _oai_messages (Scenario.agent s)
|}.

(** The world of a setting with runtime logging switched on. *)
Definition world_with_logging (s : Scenario.setting) : world :=
  fun X h op =>
    match op in Op T return Op T -> result T with
    | LoggingEnabled => fun _ => Returns true
    | _ => fun op' => Scenario.world_of s _ h op'
    end op.

End Scenario2.

(** The images closed, in order. *)
Definition images_closed (t : trace) : list picture :=
  flat_map (fun e => match e with
                     | Event op _ => match op with ImageClose img => [img] | _ => [] end
                     end) t.

(* --------------------------------------------------------------------- *)
(** *** How the combinators run *)
(* --------------------------------------------------------------------- *)

Lemma bind_run {A B} (m : M A) (k : A -> M B) (w : world) (h : trace) :
  bind m k w h =
  match snd (m w h) with
  | Returns a => ((fst (m w h) ++ fst (k a w (h ++ fst (m w h))))%list,
                  snd (k a w (h ++ fst (m w h))%list))
  | Raises e => (fst (m w h), Raises e)
  end.
Proof.
  unfold bind. destruct (m w h) as [t1 [a|e]]; simpl; [|reflexivity].
  destruct (k a w (h ++ t1)%list); reflexivity.
Qed.

Lemma try_except_run {A} (body : M A) (handler : exn -> option (M A))
    (w : world) (h : trace) :
  try_except body handler w h =
  match snd (body w h) with
  | Returns a => (fst (body w h), Returns a)
  | Raises e =>
      match handler e with
      | Some m => ((fst (body w h) ++ fst (m w (h ++ fst (body w h))))%list,
                   snd (m w (h ++ fst (body w h))%list))
      | None => (fst (body w h), Raises e)
      end
  end.
Proof.
  unfold try_except. destruct (body w h) as [t1 [a|e]]; simpl; [reflexivity|].
  destruct (handler e) as [m|]; [|reflexivity].
  destruct (m w (h ++ t1)%list); reflexivity.
Qed.

Lemma call_run {X} (op : Op X) (w : world) (h : trace) :
  call op w h = ([Event op (w X h op)], w X h op).
Proof. reflexivity. Qed.

(* --------------------------------------------------------------------- *)
(** *** Rules for [sat] *)
(* --------------------------------------------------------------------- *)

Lemma sat_weaken {A} (m : M A) (Q Q' : trace -> result A -> Prop) :
  sat m Q -> (forall t r, Q t r -> Q' t r) -> sat m Q'.
Proof. intros Hm HQ w h. apply HQ, Hm. Qed.


Lemma sat_ret {A} (a : A) (Q : trace -> result A -> Prop) :
  Q [] (Returns a) -> sat (ret a) Q.
Proof. intros HQ w h. exact HQ. Qed.

Lemma sat_raise {A} (e : exn) (Q : trace -> result A -> Prop) :
  Q [] (Raises e) -> sat (raise e) Q.
Proof. intros HQ w h. exact HQ. Qed.

Lemma sat_call {X} (op : Op X) (Q : trace -> result X -> Prop) :
  (forall r, Q [Event op r] r) -> sat (call op) Q.
Proof. intros HQ w h. apply HQ. Qed.

Lemma sat_lift {A} (r : result A) (Q : trace -> result A -> Prop) :
  Q [] r -> sat (lift r) Q.
Proof. intros HQ w h. destruct r; exact HQ. Qed.

Lemma sat_bind {A B} (m : M A) (k : A -> M B) (Q1 : trace -> result A -> Prop)
    (Q : trace -> result B -> Prop) :
  sat m Q1 ->
  (forall t1 a, Q1 t1 (Returns a) -> sat (k a) (fun t2 r => Q (t1 ++ t2)%list r)) ->
  (forall t1 e, Q1 t1 (Raises e) -> Q t1 (Raises e)) ->
  sat (bind m k) Q.
Proof.
  intros Hm Hk He w h. rewrite bind_run. specialize (Hm w h).
  destruct (snd (m w h)) as [a|e]; simpl.
  - apply (Hk _ _ Hm).
  - apply He, Hm.
Qed.

Lemma sat_try_except {A} (body : M A) (handler : exn -> option (M A))
    (Q1 Q : trace -> result A -> Prop) :
  sat body Q1 ->
  (forall t1 a, Q1 t1 (Returns a) -> Q t1 (Returns a)) ->
  (forall t1 e, Q1 t1 (Raises e) ->
     match handler e with
     | Some m => sat m (fun t2 r => Q (t1 ++ t2)%list r)
     | None => Q t1 (Raises e)
     end) ->
  sat (try_except body handler) Q.
Proof.
  intros Hb Hr He w h. rewrite try_except_run. specialize (Hb w h).
  destruct (snd (body w h)) as [a|e]; simpl.
  - apply Hr, Hb.
  - specialize (He _ _ Hb). destruct (handler e) as [m|]; [apply He | exact He].
Qed.

(* --------------------------------------------------------------------- *)
(** *** Rules for [emits] *)
(* --------------------------------------------------------------------- *)

Section Emits.

Variable P : event -> bool.

Lemma emits_ret {A} (a : A) : emits P (ret a).
Proof. intros w h. reflexivity. Qed.

Lemma emits_raise {A} (e : exn) : emits P (@raise A e).
Proof. intros w h. reflexivity. Qed.

Lemma emits_lift {A} (r : result A) : emits P (lift r).
Proof. destruct r; [apply emits_ret | apply emits_raise]. Qed.

Lemma emits_call {X} (op : Op X) :
  (forall r, P (Event op r) = true) -> emits P (call op).
Proof. intros HP w h. simpl. rewrite HP. reflexivity. Qed.

Lemma emits_bind {A B} (m : M A) (k : A -> M B) :
  emits P m -> (forall a, emits P (k a)) -> emits P (bind m k).
Proof.
  intros Hm Hk. apply sat_bind with (Q1 := fun t _ => forallb P t = true).
  - exact Hm.
  - intros t1 a H1 w h. simpl. rewrite forallb_app, H1. apply Hk.
  - intros t1 e H1. exact H1.
Qed.

Lemma emits_try_except {A} (body : M A) (handler : exn -> option (M A)) :
  emits P body ->
  (forall e m, handler e = Some m -> emits P m) ->
  emits P (try_except body handler).
Proof.
  intros Hb Hh. apply sat_try_except with (Q1 := fun t _ => forallb P t = true).
  - exact Hb.
  - intros t1 a H1. exact H1.
  - intros t1 e H1. destruct (handler e) as [m|] eqn:E; [|exact H1].
    intros w h. simpl. rewrite forallb_app, H1. apply (Hh _ _ E).
Qed.

Lemma emits_when (b : bool) (m : M unit) : emits P m -> emits P (when b m).
Proof. intros Hm. destruct b; [exact Hm | apply emits_ret]. Qed.

End Emits.

(** The handlers yield the continuation they were built from. *)
Lemma except_all_some {A} (k m : M A) (e : exn) : except_all k e = Some m -> m = k.
Proof. intros H. inversion H. reflexivity. Qed.

Lemma except_TimeoutError_some {A} (k m : M A) (e : exn) :
  except_TimeoutError k e = Some m -> m = k /\ e = TimeoutError.
Proof. destruct e; simpl; intros H; inversion H. split; reflexivity. Qed.

Lemma except_ValueError_some {A} (k : string -> M A) (m : M A) (e : exn) :
  except_ValueError k e = Some m -> exists msg, e = ValueError msg /\ m = k msg.
Proof. destruct e; simpl; intros H; inversion H. eexists; split; reflexivity. Qed.

(** One step of a proof that a program emits only events of a kind. *)
Ltac emits_step :=
  lazymatch goal with
  | |- emits _ (bind _ _) => apply emits_bind; [| intros ]
  | |- emits _ (call _) => apply emits_call; intros; reflexivity
  | |- emits _ (ret _) => apply emits_ret
  | |- emits _ (raise _) => apply emits_raise
  | |- emits _ (lift _) => apply emits_lift
  | |- emits _ (when _ _) => apply emits_when
  | |- emits _ (try_except _ (except_all _)) =>
      apply emits_try_except;
      [| let H := fresh in intros ? ? H; apply except_all_some in H; subst ]
  | |- emits _ (try_except _ (except_TimeoutError _)) =>
      apply emits_try_except;
      [| let H := fresh in
         intros ? ? H; apply except_TimeoutError_some in H; destruct H; subst ]
  | |- emits _ (try_except _ (except_ValueError _)) =>
      apply emits_try_except;
      [| let H := fresh in
         intros ? ? H; apply except_ValueError_some in H;
         destruct H as [? [? ?]]; subst ]
  | |- emits _ (match ?x with _ => _ end) => destruct x
  end.

Ltac emits_auto := repeat emits_step.

(* --------------------------------------------------------------------- *)
(** *** Symbolic execution *)
(* --------------------------------------------------------------------- *)

(** The combinators are unfolded; then every answer of the world, and
    every test the program makes on data, is split into its cases. *)
Ltac unfold_run :=
  cbv beta iota zeta delta [bind call try_except ret raise lift when
                            except_all except_TimeoutError except_ValueError] in *.

Ltac split_on x :=
  let E := fresh "E" in destruct x eqn:E; cbv beta iota zeta in *.

Ltac run_step :=
  match goal with
  | |- context [match ?w ?X ?h ?op with Returns _ => _ | Raises _ => _ end] =>
      split_on (w X h op)
  | H : context [match ?w ?X ?h ?op with Returns _ => _ | Raises _ => _ end] |- _ =>
      split_on (w X h op)
  | |- context [match percent_of ?a ?b with Returns _ => _ | Raises _ => _ end] =>
      split_on (percent_of a b)
  | H : context [match percent_of ?a ?b with Returns _ => _ | Raises _ => _ end] |- _ =>
      split_on (percent_of a b)
  | |- context [let (_, _) := ?p in _] => is_var p; destruct p; cbv beta iota zeta in *
  | H : context [let (_, _) := ?p in _] |- _ => is_var p; destruct p; cbv beta iota zeta in *
  | |- context [if Nat.eqb ?n 0 then _ else _] => split_on (Nat.eqb n 0)
  | H : context [if Nat.eqb ?n 0 then _ else _] |- _ => split_on (Nat.eqb n 0)
  | |- context [if Py.truthy ?s then _ else _] => split_on (Py.truthy s)
  | H : context [if Py.truthy ?s then _ else _] |- _ => split_on (Py.truthy s)
  | |- context [if ?b then _ else _] => is_var b; destruct b; cbv beta iota zeta in *
  | H : context [if ?b then _ else _] |- _ => is_var b; destruct b; cbv beta iota zeta in *
  | |- context [match ?x with Some _ => _ | None => _ end] =>
      is_var x; destruct x; cbv beta iota zeta in *
  | |- context [match ?x with ValueError _ => _ | _ => _ end] =>
      is_var x; destruct x; cbv beta iota zeta in *
  | |- context [match json_loads ?l ?s with Returns _ => _ | Raises _ => _ end] =>
      split_on (json_loads l s)
  | |- context [match args_get ?a ?k with JStr _ => _ | _ => _ end] =>
      split_on (args_get a k)
  | |- context [if Py.startswith_any ?u ?l then _ else _] => split_on (Py.startswith_any u l)
  | |- context [if Py.contains_char ?c ?u then _ else _] => split_on (Py.contains_char c u)
  end.

Ltac run_all := unfold_run; repeat (run_step; try (simpl in *; discriminate)).

(** Membership in a trace built by appending. *)
Ltac in_trace := simpl; repeat rewrite in_app_iff; simpl; tauto.

Lemma evaluate_page_script_never_raises : never_raises evaluate_page_script.
Proof.
  intros w h. unfold evaluate_page_script. run_all; reflexivity.
Qed.

(** The helper script, kept folded during symbolic execution. *)
Ltac skip_page_script :=
  match goal with
  | |- context [evaluate_page_script ?w ?h] =>
      let H := fresh in
      pose proof (evaluate_page_script_never_raises w h) as H;
      destruct (evaluate_page_script w h) as [? [[]|?]];
      [clear H | simpl in H; discriminate]; cbv beta iota zeta in *
  | H0 : context [evaluate_page_script ?w ?h] |- _ =>
      let H := fresh in
      pose proof (evaluate_page_script_never_raises w h) as H;
      destruct (evaluate_page_script w h) as [? [[]|?]];
      [clear H | simpl in H; discriminate]; cbv beta iota zeta in *
  end.

Ltac run_folded :=
  unfold_run; repeat (first [skip_page_script | run_step]; try (simpl in *; discriminate)).

Lemma evaluate_page_script_observes : emits is_observation evaluate_page_script.
Proof. unfold evaluate_page_script. emits_auto. Qed.

Lemma prepare_request_observes lib self messages :
  emits is_observation (prepare_request lib self messages).
Proof.
  unfold prepare_request, _get_interactive_rects, _get_visual_viewport,
    _get_focused_rect_id, evaluate_page_script, when_debugging.
  emits_auto.
Qed.

Lemma report_observes lib self message d :
  emits is_observation (report lib self message d).
Proof.
  unfold report, _get_visual_viewport, evaluate_page_script, when_debugging.
  emits_auto.
Qed.

(** The same execution, confined to one hypothesis [E : m w h = (t, r)]:
    at the end of each path [t] and [r] are the trace and the outcome of
    that path. *)
Ltac split_in E x :=
  let E' := fresh "E" in destruct x eqn:E'; cbv beta iota zeta in E.

Ltac run_step_in E :=
  match type of E with
  | context [match ?w ?X ?h ?op with Returns _ => _ | Raises _ => _ end] =>
      is_var w; split_in E (w X h op)
  | context [let (_, _) := ?p in _] => is_var p; destruct p; cbv beta iota zeta in E
  | context [match percent_of ?a ?b with Returns _ => _ | Raises _ => _ end] =>
      split_in E (percent_of a b)
  | context [match json_loads ?l ?s with Returns _ => _ | Raises _ => _ end] =>
      split_in E (json_loads l s)
  | context [match args_get ?a ?k with JStr _ => _ | _ => _ end] =>
      split_in E (args_get a k)
  | context [if Nat.eqb ?n 0 then _ else _] => split_in E (Nat.eqb n 0)
  | context [if Py.truthy ?s then _ else _] =>
      first [ let b := eval cbv in (Py.truthy s) in
              first [constr_eq b true | constr_eq b false];
              change (Py.truthy s) with b in E; cbv beta iota zeta in E
            | split_in E (Py.truthy s) ]
  | context [if Py.startswith_any ?u ?l then _ else _] =>
      split_in E (Py.startswith_any u l)
  | context [if Py.contains_char ?c ?u then _ else _] =>
      split_in E (Py.contains_char c u)
  | context [if ?b then _ else _] => is_var b; destruct b; cbv beta iota zeta in E
  | context [match ?x with Some _ => _ | None => _ end] =>
      is_var x; destruct x; cbv beta iota zeta in E
  | context [match ?x with ValueError _ => _ | _ => _ end] =>
      is_var x; destruct x; cbv beta iota zeta in E
  end.

Ltac run_paths E :=
  cbv beta iota zeta delta [bind call try_except ret raise lift when
                            except_all except_TimeoutError except_ValueError] in E;
  repeat run_step_in E.

Ltac run_in E := run_paths E; injection E as <- <-.

(* --------------------------------------------------------------------- *)
(** *** Strings *)
(* --------------------------------------------------------------------- *)

Lemma startswith_iff (s p : string) :
  Py.startswith s p = true <-> exists rest, s = p ++ rest.
Proof.
  unfold Py.startswith. revert s. induction p as [|a p IH]; intros s; simpl.
  - split; [intros _; exists s; reflexivity | intros _; destruct s; reflexivity].
  - destruct s as [|b s]; simpl.
    + split; [discriminate | intros [rest H]; discriminate].
    + destruct (Ascii.ascii_dec a b) as [->|Hab].
      * rewrite IH. split; intros [rest H]; exists rest.
        -- now rewrite H.
        -- now inversion H.
      * split; [discriminate | intros [rest H]; inversion H; congruence].
Qed.

Lemma startswith_any_iff (s : string) (ps : list string) :
  Py.startswith_any s ps = true <-> exists p rest, In p ps /\ s = p ++ rest.
Proof.
  unfold Py.startswith_any. rewrite existsb_exists. split.
  - intros [p [Hin Hp]]. apply startswith_iff in Hp. destruct Hp as [rest ->].
    exists p, rest. split; [exact Hin | reflexivity].
  - intros [p [rest [Hin ->]]]. exists p. split; [exact Hin|].
    apply startswith_iff. exists rest. reflexivity.
Qed.

Lemma contains_char_iff (c : ascii) (s : string) :
  Py.contains_char c s = true <-> exists a b, s = a ++ String c b.
Proof.
  induction s as [|x s IH]; simpl.
  - split; [discriminate | intros [[|? ?] [b H]]; discriminate].
  - destruct (Ascii.eqb_spec x c) as [->|Hxc].
    + split; [intros _; exists "", s; reflexivity | reflexivity].
    + rewrite IH. split.
      * intros [a [b ->]]. exists (String x a), b. reflexivity.
      * intros [[|y a] [b H]]; simpl in H; inversion H; subst.
        -- congruence.
        -- exists a, b. reflexivity.
Qed.

(* ===================================================================== *)
(** ** The [visit_url] tool *)
(* ===================================================================== *)

(** The first comparison of the dispatch. *)
Lemma dispatch_visit_url (lib : Library) (rs : rects) (args : jdict) :
  dispatch lib rs "visit_url" args =
  match args_get args "url" with
  | JStr url =>
      (if Py.startswith_any url ["https://"; "http://"; "file://"; "about:"] then
         _visit_page url
       else if Py.contains_char " " url then _visit_page (bing_search lib url)
       else _visit_page ("https://" ++ url)) ;;
      ret ("I typed '" ++ str (args_get args "url") ++ "' into the browser address bar.")
  | _ => raise AttributeError
  end.
Proof. reflexivity. Qed.

(** C8.  Whatever string the model passes as [url] to [visit_url], the
    tool performs exactly one call, a navigation: to the url unchanged when
    it starts with [https://], [http://], [file://] or [about:];
    otherwise, when it contains a space, to the Bing search for its
    [quote_plus] encoding; otherwise to the url prefixed with
    [https://]. *)
Theorem visit_url_destination (lib : Library) (rs : rects) (args : jdict)
    (url : string) (w : world) (h : trace) :
  args_get args "url" = JStr url ->
  let t := fst (dispatch lib rs "visit_url" args w h) in
  let goto := fun target => [Event (PageGoto target) (w unit h (PageGoto target))] in
  (has_protocol url -> t = goto url)
  /\ (~ has_protocol url -> has_space url ->
      t = goto ("https://www.bing.com/search?q=" ++ quote_plus lib url ++ "&FORM=QBLH"))
  /\ (~ has_protocol url -> ~ has_space url -> t = goto ("https://" ++ url)).
Proof.
  intros Hurl t goto. subst t goto. rewrite dispatch_visit_url, Hurl.
  assert (Hp : Py.startswith_any url ["https://"; "http://"; "file://"; "about:"] = true
               <-> has_protocol url) by apply startswith_any_iff.
  assert (Hs : Py.contains_char " " url = true <-> has_space url)
    by apply contains_char_iff.
  assert (Hgo : forall target (d : string),
             fst ((_visit_page target ;; ret d) w h)
             = [Event (PageGoto target) (w unit h (PageGoto target))]).
  { intros target d. unfold _visit_page. rewrite bind_run, call_run. simpl.
    destruct (w unit h (PageGoto target)); reflexivity. }
  destruct (Py.startswith_any url _) eqn:Ep.
  - split; [intros _; apply Hgo|].
    split; intros Hn; exfalso; apply Hn, Hp; reflexivity.
  - assert (Hnp : ~ has_protocol url) by (intros H; apply Hp in H; discriminate).
    split; [intros H; contradiction|].
    destruct (Py.contains_char " " url) eqn:Es.
    + split; [intros _ _; apply Hgo|]. intros _ Hn. exfalso. apply Hn, Hs. reflexivity.
    + split; [|intros _ _; apply Hgo]. intros _ H. apply Hs in H. discriminate.
Qed.

(** The theorem applied to the url [rocq prover], which has no protocol
    and contains a space. *)
Lemma visit_url_destination_witness :
  fst (dispatch Scenario.lib [] "visit_url" [("url", JStr "rocq prover")]
         (Scenario.world_of (Scenario.turn (Scenario.tool "visit_url" "")))
         [])
  = [Event (PageGoto "https://www.bing.com/search?q=rocq+prover&FORM=QBLH") (Returns tt)].
Proof.
  assert (H1 : ~ has_protocol "rocq prover").
  { intros [p [rest [Hin H]]]. simpl in Hin.
    destruct Hin as [<-|[<-|[<-|[<-|[]]]]]; discriminate H. }
  assert (H2 : has_space "rocq prover") by (exists "rocq", "prover"; reflexivity).
  exact (proj1 (proj2 (visit_url_destination Scenario.lib []
                         [("url", JStr "rocq prover")] "rocq prover"
                         (Scenario.world_of (Scenario.turn (Scenario.tool "visit_url" "")))
                         [] eq_refl)) H1 H2).
Defined.

(* ===================================================================== *)
(** ** The dispatch on the tool's name *)
(* ===================================================================== *)

(** A name outside the table fails every comparison of the dispatch. *)
Lemma outside_dispatch_table (name : string) :
  in_dispatch_table name = false ->
  Forall (fun known => String.eqb name known = false) dispatch_table.
Proof.
  unfold in_dispatch_table. intros H. apply Forall_forall. intros known Hin.
  destruct (String.eqb name known) eqn:E; [|reflexivity].
  rewrite <- H. symmetry. apply existsb_exists. exists known. split; assumption.
Qed.

Lemma dispatch_unknown (lib : Library) (rs : rects) (name : string) (args : jdict) :
  in_dispatch_table name = false ->
  dispatch lib rs name args =
  (call (LogEvent "Unknown tool" [("error", name)]) ;;
   raise (ValueError ("Unknown tool '" ++ name ++ "'"))).
Proof.
  intros H. apply outside_dispatch_table in H. unfold dispatch_table in H.
  repeat match goal with
         | H : Forall _ (_ :: _) |- _ => inversion H; clear H; subst
         end.
  unfold dispatch.
  repeat match goal with
         | E : String.eqb name _ = false |- _ => rewrite E; clear E
         end.
  reflexivity.
Qed.



(* ===================================================================== *)
(** ** One tool call per turn *)
(* ===================================================================== *)

(** C3.  Of the tool calls in the model's answer only the first is
    decoded, printed and dispatched, once; the turn then runs exactly as
    if the answer held that call alone, so the further calls are never
    executed; an answer without tool calls dispatches nothing. *)
Theorem only_first_tool_call_runs (lib : Library) (self : Agent) (rs : rects)
    (said : option string) (first : tool_call) (rest : list tool_call) :
  let answer := {| content := said; tool_calls := first :: rest |} in
  let alone := {| content := said; tool_calls := [first] |} in
  let silent := {| content := said; tool_calls := [] |} in
  run_tool_calls lib rs answer =
    (args <- lift (json_loads lib (fn_arguments first)) ;;
     _log_to_console (fn_name first) args ;;
     dispatch lib rs (fn_name first) args)
  /\ after_response lib self rs answer = after_response lib self rs alone
  /\ forall w h, run_tool_calls lib rs silent w h = ([], Returns "").
Proof.
  intros answer alone silent. split; [reflexivity|]. split; [reflexivity|].
  intros w h. reflexivity.
Qed.

(* ===================================================================== *)
(** ** The position of the viewport *)
(* ===================================================================== *)

Lemma percent_of_nonzero (part whole : Z) :
  whole <> 0 -> percent_of part whole = Returns (Z.quot (part * 100) whole).
Proof.
  intros H. unfold percent_of. destruct (Z.eqb_spec whole 0); [contradiction|reflexivity].
Qed.

Lemma percent_of_returns (part whole p : Z) :
  percent_of part whole = Returns p -> whole <> 0 /\ p = Z.quot (part * 100) whole.
Proof.
  unfold percent_of. destruct (Z.eqb_spec whole 0); [discriminate|].
  intros H. inversion H. split; [assumption|reflexivity].
Qed.


(* ===================================================================== *)
(** ** The tools offered to the model *)
(* ===================================================================== *)

(** C2, amended.  The tools handed to the model are computed afresh on
    every turn from the page: [visit_url], [history_back], [click],
    [input_text], [summarize_page] and [answer_question] are always
    offered; [web_search] only when the allow list admits Bing; [page_up]
    only when the viewport is more than 5 pixels below the top;
    [page_down] only when more than 5 pixels of the page lie below the
    viewport; the two element scrolls only when a visible element is
    scrollable.  The list passed to [client.create] is this one, for the
    viewport and the elements the page answered. *)
Theorem offered_tools_follow_the_page (lib : Library) (self : Agent) :
  (forall vp scrollable tool,
     In tool (offered_tools self vp scrollable) <->
     In tool [TOOL_VISIT_URL; TOOL_HISTORY_BACK; TOOL_CLICK; TOOL_TYPE;
              TOOL_SUMMARIZE_PAGE; TOOL_READ_PAGE_AND_ANSWER]
     \/ (tool = TOOL_WEB_SEARCH /\ _navigation_allow_list self "https://www.bing.com/" = true)
     \/ (tool = TOOL_PAGE_UP /\ 5 < pageTop vp)
     \/ (tool = TOOL_PAGE_DOWN /\ pageTop vp + height vp + 5 < scrollHeight vp)
     \/ ((tool = TOOL_SCROLL_ELEMENT_UP \/ tool = TOOL_SCROLL_ELEMENT_DOWN)
         /\ scrollable = true))
  /\ (forall messages w h rs history tools,
        snd (prepare_request lib self messages w h) = Returns (rs, history, tools) ->
        exists vp shot marked visible_rects,
          In (Event GetInteractiveRects (Returns rs))
             (fst (prepare_request lib self messages w h))
          /\ In (Event GetVisualViewport (Returns vp))
                (fst (prepare_request lib self messages w h))
          /\ In (Event (AddSetOfMark shot rs) (Returns (marked, visible_rects)))
                (fst (prepare_request lib self messages w h))
          /\ tools = offered_tools self vp (has_scrollable_elements rs visible_rects)).
Proof.
  split.
  - intros vp scrollable tool. unfold offered_tools.
    destruct (_navigation_allow_list self "https://www.bing.com/");
      destruct (Z.gtb_spec (pageTop vp) 5);
      destruct (Z.ltb_spec (pageTop vp + height vp + 5) (scrollHeight vp));
      destruct scrollable; simpl;
      intuition (try discriminate; try lia; subst; auto 20).
  - intros messages w h rs history tools H.
    unfold prepare_request, _get_interactive_rects, _get_visual_viewport,
      _get_focused_rect_id, when_debugging in *.
    run_folded.
    all: simpl in H; inversion H; subst; clear H.
    all: match goal with
         | Ev : _ = Returns ?vp, Es : ?w _ _ (AddSetOfMark ?shot _) = Returns (?marked, ?vis)
           |- context [offered_tools _ ?vp _] => exists vp, shot, marked, vis
         end.
    all: repeat split; try in_trace.
Qed.

(* ===================================================================== *)
(** ** The token budget of [_summarize_page] *)
(* ===================================================================== *)

Lemma append_nil_r (s : string) : s ++ "" = s.
Proof. induction s as [|a s IH]; simpl; [reflexivity | now rewrite IH]. Qed.

Lemma append_assoc (s1 s2 s3 : string) : (s1 ++ s2) ++ s3 = s1 ++ (s2 ++ s3).
Proof. induction s1 as [|a s1 IH]; simpl; [reflexivity | now rewrite IH]. Qed.

Lemma concat_empty_cons (x : string) (xs : list string) :
  String.concat "" (x :: xs) = x ++ String.concat "" xs.
Proof. destruct xs; simpl; [now rewrite append_nil_r | reflexivity]. Qed.

Lemma first_lines_S (k : nat) (line : string) (rest : list string) :
  first_lines (S k) (line :: rest) = line ++ first_lines k rest.
Proof. unfold first_lines. simpl firstn. apply concat_empty_cons. Qed.



Section Budget.

Variable lib : Library.
Variable token_limit : Z.

(** The loop keeps the longest run of leading lines each of whose
    prefixes fits the budget. *)
Lemma accumulate_keeps_a_prefix (lines : list string) (buffer : string) :
  exists k,
    (k <= List.length lines)%nat
    /\ accumulate lib token_limit buffer lines = buffer ++ first_lines k lines
    /\ (forall j, (1 <= j <= k)%nat ->
          count_token lib (buffer ++ first_lines j lines) + 1024 <= token_limit)
    /\ ((k < List.length lines)%nat ->
          token_limit < count_token lib (buffer ++ first_lines (S k) lines) + 1024).
Proof.
  revert buffer. induction lines as [|line rest IH]; intros buffer.
  - exists 0%nat. simpl. unfold first_lines. simpl. rewrite append_nil_r.
    repeat split; intros; try lia; reflexivity.
  - simpl accumulate.
    destruct (Z.gtb_spec (count_token lib (buffer ++ line) + 1024) token_limit) as [Hgt|Hle].
    + exists 0%nat. unfold first_lines at 1. simpl firstn. simpl String.concat.
      rewrite append_nil_r. repeat split; intros; try (simpl; lia).
      rewrite first_lines_S. unfold first_lines. simpl. rewrite append_nil_r. lia.
    + destruct (IH (buffer ++ line)) as [k [Hk [Hacc [Hfit Hstop]]]].
      exists (S k). rewrite first_lines_S. split; [simpl; lia|].
      split; [rewrite Hacc; apply append_assoc|]. split.
      * intros [|j] Hj; [lia|]. rewrite first_lines_S.
        destruct j as [|j].
        -- unfold first_lines. simpl. rewrite append_nil_r. exact Hle.
        -- rewrite <- append_assoc. apply Hfit. lia.
      * intros Hlt. rewrite first_lines_S, <- append_assoc. apply Hstop. simpl in Hlt. lia.
Qed.


End Budget.



(* ===================================================================== *)
(** ** Counting the calls to the model *)
(* ===================================================================== *)

Lemma emits_weaken {A} (P P' : event -> bool) (m : M A) :
  (forall e, P e = true -> P' e = true) -> emits P m -> emits P' m.
Proof.
  intros HP Hm w h. specialize (Hm w h). simpl in *.
  rewrite forallb_forall in *. intros e He. apply HP, Hm, He.
Qed.

Lemma model_calls_app (t1 t2 : trace) :
  model_calls (t1 ++ t2)%list = (model_calls t1 + model_calls t2)%nat.
Proof. unfold model_calls. rewrite filter_app, length_app. reflexivity. Qed.

Lemma markdown_read_app (t1 t2 : trace) :
  markdown_read (t1 ++ t2)%list = (markdown_read t1 ++ markdown_read t2)%list.
Proof. unfold markdown_read. apply flat_map_app. Qed.

Lemma no_model_calls (t : trace) :
  forallb (fun e => negb (is_model_call e)) t = true -> model_calls t = 0%nat.
Proof.
  unfold model_calls. induction t as [|e t IH]; simpl; [reflexivity|].
  destruct (is_model_call e); simpl; [discriminate | exact IH].
Qed.

Lemma no_markdown_read (t : trace) :
  forallb (fun e => negb (is_conversion e)) t = true -> markdown_read t = [].
Proof.
  induction t as [|e t IH]; simpl; [reflexivity|].
  intros H. apply andb_true_iff in H. destruct H as [He Ht].
  rewrite (IH Ht), app_nil_r. destruct e as [X op answer].
  destruct op; try reflexivity. discriminate He.
Qed.

Lemma silent_trace (t : trace) :
  forallb is_silent t = true -> model_calls t = 0%nat /\ markdown_read t = [].
Proof.
  intros H. split; [apply no_model_calls | apply no_markdown_read];
    rewrite forallb_forall in *; intros e He; specialize (H e He);
    unfold is_silent in H; apply andb_true_iff in H; tauto.
Qed.

Ltac unfold_methods :=
  unfold prepare_request, report, _get_interactive_rects, _get_visual_viewport,
    _get_focused_rect_id, evaluate_page_script, when_debugging, _click_id, _fill_id,
    _scroll_id, _page_up, _page_down, _back, _visit_page, _on_new_page,
    _log_to_console, _get_page_markdown.

Lemma prepare_request_silent lib self messages :
  emits is_silent (prepare_request lib self messages).
Proof. unfold_methods. emits_auto. Qed.


Lemma log_to_console_silent name args : emits is_silent (_log_to_console name args).
Proof. unfold_methods. emits_auto. Qed.

(** A tool other than the two that summarize calls neither the model nor
    the converter. *)
Lemma dispatch_silent lib rs name args :
  is_summary_tool name = false -> emits is_silent (dispatch lib rs name args).
Proof.
  intros H. unfold is_summary_tool in H. apply orb_false_iff in H. destruct H as [H1 H2].
  unfold dispatch. rewrite H1, H2. unfold_methods.
  repeat match goal with
         | |- emits _ (if ?b then _ else _) => destruct b
         end; emits_auto.
Qed.

(** [_summarize_page] calls the model at most once, and exactly when it
    gets as far as a non-empty text. *)
Lemma summarize_page_calls lib question :
  sat (_summarize_page lib question default_token_limit)
      (calls_bounded lib true (fun r => returns r = true)).
Proof.
  intros w h. unfold calls_bounded, summary_text, _summarize_page, _get_page_markdown.
  run_all; unfold model_calls, markdown_read; simpl;
    (split; [lia|]); (split; [reflexivity|]); intros Hr _;
    try discriminate Hr; eexists; (split; [reflexivity|]);
    match goal with E : Nat.eqb _ 0 = _ |- _ => rewrite E end; reflexivity.
Qed.

Lemma calls_bounded_silent {A} lib summary (completed : result A -> Prop) t r :
  forallb is_silent t = true -> (completed r -> summary = false) ->
  calls_bounded lib summary completed t r.
Proof.
  intros Hs Hc. destruct (silent_trace t Hs) as [H0 _]. unfold calls_bounded.
  rewrite H0. repeat split; intros; try lia; try discriminate.
  rewrite Hc in *; [discriminate | assumption].
Qed.

Lemma calls_bounded_mono {A B} lib summary (c1 : result A -> Prop) (c2 : result B -> Prop)
    (t : trace) (r : result A) (r' : result B) :
  (c2 r' -> c1 r) ->
  calls_bounded lib summary c1 t r -> calls_bounded lib summary c2 t r'.
Proof.
  intros Hc [H1 [H2 H3]]. split; [exact H1|]. split; [exact H2|].
  intros Hc2. apply H3, Hc, Hc2.
Qed.

(** Silent events before and after do not change the count. *)
Lemma calls_bounded_frame {A B} lib summary (c1 : result A -> Prop) (c2 : result B -> Prop)
    (t0 t t' : trace) (r : result A) (r' : result B) :
  forallb is_silent t0 = true -> forallb is_silent t' = true ->
  (c2 r' -> c1 r) ->
  calls_bounded lib summary c1 t r ->
  calls_bounded lib summary c2 (t0 ++ t ++ t')%list r'.
Proof.
  intros H0 H' Hc [Hle [Hone Hdone]].
  destruct (silent_trace t0 H0) as [Hm0 Hr0].
  destruct (silent_trace t' H') as [Hm' Hr'].
  unfold calls_bounded.
  rewrite !model_calls_app, !markdown_read_app, Hm0, Hm', Hr0, Hr', Nat.add_0_r, app_nil_r.
  simpl. split; [exact Hle|]. split; [exact Hone|].
  intros Hc2 Hs. apply Hdone; [apply Hc, Hc2 | exact Hs].
Qed.

Lemma summary_tool_names (name : string) :
  is_summary_tool name = true -> name = "answer_question" \/ name = "summarize_page".
Proof.
  unfold is_summary_tool. intros H. apply orb_true_iff in H.
  destruct H as [H|H]; apply String.eqb_eq in H; auto.
Qed.

Lemma run_tool_calls_calls lib rs message :
  sat (run_tool_calls lib rs message)
      (calls_bounded lib (selects_summary message) (fun r => returns r = true)).
Proof.
  unfold run_tool_calls, selects_summary.
  destruct (tool_calls message) as [|first rest].
  { apply sat_ret. apply calls_bounded_silent; reflexivity. }
  apply sat_bind with (Q1 := fun t _ => t = []).
  - apply sat_lift. reflexivity.
  - intros t1 args ->. simpl.
    apply sat_bind with (Q1 := fun t _ => forallb is_silent t = true).
    + apply log_to_console_silent.
    + intros t1 [] Hs. destruct (is_summary_tool (fn_name first)) eqn:Es.
      * assert (Hd : exists question,
                  dispatch lib rs (fn_name first) args
                  = _summarize_page lib question default_token_limit).
        { destruct (summary_tool_names _ Es) as [-> | ->]; eexists; reflexivity. }
        destruct Hd as [question ->].
        apply sat_weaken with (Q := calls_bounded lib true (fun r => returns r = true)).
        { apply summarize_page_calls. }
        intros t r H. rewrite <- (app_nil_r t).
        apply (calls_bounded_frame lib true _ _ t1 t [] r r Hs eq_refl (fun x => x) H).
      * apply sat_weaken with (Q := fun t _ => forallb is_silent t = true).
        { apply dispatch_silent. exact Es. }
        intros t r H. apply calls_bounded_silent.
        -- rewrite forallb_app, Hs, H. reflexivity.
        -- reflexivity.
    + intros t1 e Hs. apply calls_bounded_silent; [exact Hs | discriminate].
  - intros t1 e ->. apply calls_bounded_silent; [reflexivity | discriminate].
Qed.

(** The handler of the [ValueError] neither calls the model nor falls
    through. *)
Lemma value_error_handler_silent (e : string) :
  sat (enabled <- call LoggingEnabled ;;
       when enabled (call (LogEvent "ValueError" [("error", e)])) ;;
       ret (@Return string (bool * reply) (true, ReplyText e)))
      (fun t r => forallb is_silent t = true
                  /\ (forall d, r <> Returns (FallThrough d))
                  /\ (forall v, r = Returns (Return v) -> v = (true, ReplyText e))).
Proof.
  intros w h. run_all; simpl; repeat split; intros; try discriminate;
    try (inversion H; reflexivity).
Qed.

Lemma act_calls lib rs message :
  sat (act lib rs message)
      (fun t r =>
         calls_bounded lib (selects_summary message)
           (fun r => exists d, r = Returns (FallThrough d)) t r
         /\ (forall v, r = Returns (Return v) -> exists e, v = (true, ReplyText e))).
Proof.
  unfold act.
  apply sat_try_except with
    (Q1 := fun t r =>
             calls_bounded lib (selects_summary message) (fun r => returns r = true) t r
             /\ (forall v, r <> Returns (Return v))).
  - apply sat_bind with
      (Q1 := calls_bounded lib (selects_summary message) (fun r => returns r = true)).
    + apply run_tool_calls_calls.
    + intros t1 d H. apply sat_ret. rewrite app_nil_r. split; [|discriminate].
      apply calls_bounded_mono with (2 := H). intros _. reflexivity.
    + intros t1 e H. split; [|discriminate].
      apply calls_bounded_mono with (2 := H). discriminate.
  - intros t1 a [H Hv]. split.
    + apply calls_bounded_mono with (2 := H). intros _. reflexivity.
    + intros v Hv'. exfalso. apply (Hv v). exact Hv'.
  - intros t1 e [H Hv]. destruct e as [msg| | | | |]; simpl;
      try (split; [|discriminate]; apply calls_bounded_mono with (2 := H);
           intros [d Hd]; discriminate Hd).
    apply sat_weaken with (1 := value_error_handler_silent msg).
    intros t2 r [Hs [Hd Hr]]. split.
    + change (t1 ++ t2)%list with ([] ++ t1 ++ t2)%list.
      apply (calls_bounded_frame lib _ _ _ [] t1 t2 _ r eq_refl Hs) with (2 := H).
      intros [d ->]. exfalso. apply (Hd d). reflexivity.
    + intros v Hv'. exists msg. apply Hr. exact Hv'.
Qed.


(** The tool selected for the turn is read off the first answer of the
    model. *)
Lemma selected_tool_after_silence (t1 t3 : trace) messages tools (message : response) :
  forallb is_silent t1 = true ->
  selected_tool (t1 ++ Event (ClientCreate messages tools) (Returns message) :: t3)%list
  = match tool_calls message with
    | first :: _ => Some (fn_name first)
    | [] => None
    end.
Proof.
  induction t1 as [|e t1 IH]; intros Hs; [reflexivity|].
  simpl in Hs. apply andb_true_iff in Hs. destruct Hs as [He Hs].
  simpl. unfold is_silent in He. apply andb_true_iff in He. destruct He as [He _].
  destruct e as [X op answer]. destruct op; try (apply IH, Hs). discriminate He.
Qed.


(* ===================================================================== *)
(** ** Which failures are caught *)
(* ===================================================================== *)




Section Propagation.








End Propagation.



Ltac unfold_turn :=
  unfold generate_surfer_reply, after_response, act, run_tool_calls, dispatch,
    _summarize_page;
  unfold_methods.


(* ===================================================================== *)
(** ** The [ValueError] that ends a turn *)
(* ===================================================================== *)

(** A [ValueError] raised while the tool call runs is caught: the logger
    is consulted and, unless the logger itself fails, the turn returns
    [(True, str(e))]. *)
Lemma value_error_caught lib self rs message w h msg :
  snd (run_tool_calls lib rs message w h) = Raises (ValueError msg) ->
  exists t_log,
    fst (after_response lib self rs message w h)
    = (fst (run_tool_calls lib rs message w h) ++ t_log)%list
    /\ forallb is_logging t_log = true
    /\ (forallb (fun e => negb (has_failed e)) t_log = true ->
        snd (after_response lib self rs message w h) = Returns (true, ReplyText msg)).
Proof.
  intros Hr. unfold after_response, act.
  rewrite bind_run, try_except_run, bind_run, Hr. cbn [snd fst except_ValueError].
  match goal with
  | |- context [bind (call LoggingEnabled) ?k w ?h'] =>
      destruct (bind (call LoggingEnabled) k w h') as [tl rl] eqn:El
  end.
  run_in El; unfold ret; cbn [snd fst]; rewrite ?app_nil_r;
    eexists; (split; [reflexivity|]); split;
    try reflexivity; intros Hok; try discriminate Hok; reflexivity.
Qed.

Ltac unfold_methods_in E :=
  unfold dispatch, _summarize_page in E;
  unfold _get_interactive_rects, _get_visual_viewport,
    _get_focused_rect_id, evaluate_page_script, when_debugging, _click_id, _fill_id,
    _scroll_id, _page_up, _page_down, _back, _visit_page, _on_new_page,
    _log_to_console, _get_page_markdown in E.

(** The two directions of the characterisation, at the end of a path. *)
Ltac value_error_leaf :=
  cbn [last_failure ends_with_lookup failure app forallb is_browser_action negb andb];
  split;
  [ split;
    [ let H := fresh in
      intros H; first
        [ discriminate H
        | inversion H; subst;
          first [ solve [left; reflexivity]
                | solve [right; left; repeat split; auto]
                | solve [right; right; left; repeat split; auto; discriminate]
                | solve [right; right; right; reflexivity] ] ]
    | let H := fresh in
      intros [H|[H|[H|H]]];
      repeat match goal with
             | H : _ /\ _ |- _ => destruct H
             | H : _ \/ _ |- _ => destruct H
             end;
      subst;
      solve [ reflexivity | congruence | discriminate | contradiction
            | exfalso; auto ] ]
  | let H := fresh in
    let H' := fresh in
    intros H H'; first [ discriminate H | reflexivity
                       | exfalso; apply H'; inversion H; subst; reflexivity ] ].

Lemma value_error_sources lib rs said name arguments rest w h t r :
  run_tool_calls lib rs
    {| content := said;
       tool_calls := {| fn_name := name; fn_arguments := arguments |} :: rest |} w h
  = (t, r) ->
  forall msg,
    (r = Raises (ValueError msg) <->
       json_loads lib arguments = Raises (ValueError msg)
       \/ ((name = "click" \/ name = "input_text")
           /\ ends_with_lookup t = true /\ last_failure t = Some TimeoutError
           /\ msg = "No such element.")
       \/ (in_dispatch_table name = false /\ t <> [] /\ last_failure t = None
           /\ msg = "Unknown tool '" ++ name ++ "'")
       \/ last_failure t = Some (ValueError msg))
    /\ (r = Raises (ValueError msg) -> last_failure t <> Some (ValueError msg) ->
        forallb (fun e => negb (is_browser_action e)) t = true).
Proof.
  intros E msg. unfold run_tool_calls in E. cbn [tool_calls fn_name fn_arguments] in E.
  destruct (in_dispatch_table name) eqn:Htab.
  - apply existsb_exists in Htab. destruct Htab as [known [Hin Heq]].
    apply String.eqb_eq in Heq. subst known. simpl in Hin.
    repeat (destruct Hin as [<-|Hin]); try contradiction.
    all: unfold_methods_in E; cbn [String.eqb Ascii.eqb Bool.eqb] in E; run_in E.
    all: value_error_leaf.
  - assert (Hc : name <> "click") by (intros ->; discriminate Htab).
    assert (Hi : name <> "input_text") by (intros ->; discriminate Htab).
    unfold _log_to_console in E. run_paths E.
    all: try rewrite (dispatch_unknown _ _ _ _ Htab) in E.
    all: run_in E.
    all: value_error_leaf.
Qed.

(** C9, amended.  While the first tool call is decoded and run, a
    [ValueError] is raised in exactly four ways: [json.loads] rejects the
    arguments; [click] or [input_text] looks up an element and the wait
    for it times out ("No such element."); the name is outside the
    dispatch table ("Unknown tool '...'"); or an external call made by
    the tool raises one itself.  In the first three ways no action has
    been performed on the page.  In every case [generate_surfer_reply]
    catches the exception, consults the logger and, unless the logger
    fails, returns [(True, str(e))]: the rest of the turn consists of
    logging calls only. *)
Theorem value_error_ends_the_turn (lib : Library) (self : Agent) (rs : rects)
    (said : option string) (first : tool_call) (rest : list tool_call)
    (w : world) (h : trace) (msg : string) :
  let message := {| content := said; tool_calls := first :: rest |} in
  let name := fn_name first in
  let t := fst (run_tool_calls lib rs message w h) in
  let r := snd (run_tool_calls lib rs message w h) in
  (r = Raises (ValueError msg) <->
     json_loads lib (fn_arguments first) = Raises (ValueError msg)
     \/ ((name = "click" \/ name = "input_text")
         /\ ends_with_lookup t = true /\ last_failure t = Some TimeoutError
         /\ msg = "No such element.")
     \/ (in_dispatch_table name = false /\ t <> [] /\ last_failure t = None
         /\ msg = "Unknown tool '" ++ name ++ "'")
     \/ last_failure t = Some (ValueError msg))
  /\ (r = Raises (ValueError msg) -> last_failure t <> Some (ValueError msg) ->
      forallb (fun e => negb (is_browser_action e)) t = true)
  /\ (r = Raises (ValueError msg) ->
      exists t_log,
        fst (after_response lib self rs message w h) = (t ++ t_log)%list
        /\ forallb is_logging t_log = true
        /\ (forallb (fun e => negb (has_failed e)) t_log = true ->
            snd (after_response lib self rs message w h)
            = Returns (true, ReplyText msg))).
Proof.
  intros message name t r. subst message name t r. destruct first as [name arguments].
  cbn [fn_name fn_arguments].
  destruct (run_tool_calls lib rs _ w h) as [t r] eqn:E.
  destruct (value_error_sources lib rs said name arguments rest w h t r E msg) as [H1 H2].
  cbn [fst snd]. split; [exact H1|]. split; [exact H2|].
  intros Hr.
  pose proof (value_error_caught lib self rs
                {| content := said;
                   tool_calls := {| fn_name := name; fn_arguments := arguments |} :: rest |}
                w h msg) as Hc.
  rewrite E in Hc. apply Hc. exact Hr.
Qed.

(* ===================================================================== *)
(** ** The order of a turn *)
(* ===================================================================== *)



(* ===================================================================== *)
(** ** Where failures are caught *)
(* ===================================================================== *)





(* ===================================================================== *)
(** ** The theorems on concrete turns *)
(* ===================================================================== *)



(** On a short page with Bing off the allow list the model is offered six
    tools, without search and without any scroll; in the middle of a long
    page with a scrollable list it is offered eleven. *)
Lemma offered_tools_differ_between_turns :
  tools_offered (fst (Scenario.play (Scenario.turn_on_short_page Scenario.says_visit)))
  = [[TOOL_VISIT_URL; TOOL_HISTORY_BACK; TOOL_CLICK; TOOL_TYPE;
      TOOL_SUMMARIZE_PAGE; TOOL_READ_PAGE_AND_ANSWER]]
  /\ tools_offered (fst (Scenario.play (Scenario.turn_in_mid_page Scenario.says_visit)))
     = [[TOOL_VISIT_URL; TOOL_HISTORY_BACK; TOOL_CLICK; TOOL_TYPE;
         TOOL_SUMMARIZE_PAGE; TOOL_READ_PAGE_AND_ANSWER; TOOL_WEB_SEARCH;
         TOOL_PAGE_UP; TOOL_PAGE_DOWN; TOOL_SCROLL_ELEMENT_UP;
         TOOL_SCROLL_ELEMENT_DOWN]].
Proof. vm_compute. split; reflexivity. Qed.

(** [offered_tools_follow_the_page] at the top of a long page. *)
Lemma offered_tools_follow_the_page_witness :
  In TOOL_PAGE_DOWN
     (offered_tools (Scenario.agent (Scenario.turn Scenario.says_visit))
        Scenario.top_of_long_page false).
Proof.
  apply (proj1 (offered_tools_follow_the_page Scenario.lib
                  (Scenario.agent (Scenario.turn Scenario.says_visit)))).
  right; right; right; left. split; [reflexivity | vm_compute; reflexivity].
Defined.






(** The model selects [visit_url], a name of the dispatch table that is
    neither [click] nor [input_text], with arguments that are no JSON:
    [json.loads] raises a [ValueError] and the turn returns its text. *)
Lemma malformed_arguments_end_the_turn :
  selected_tool (fst (Scenario.play (Scenario.turn Scenario.says_malformed)))
  = Some "visit_url"
  /\ in_dispatch_table "visit_url" = true
  /\ String.eqb "visit_url" "click" || String.eqb "visit_url" "input_text" = false
  /\ snd (Scenario.play (Scenario.turn Scenario.says_malformed))
     = Returns (true, ReplyText
         "Expecting property name enclosed in double quotes: line 1 column 2 (char 1)").
Proof. vm_compute. repeat split; reflexivity. Qed.

(** [value_error_ends_the_turn] at arguments that are no JSON. *)
Lemma value_error_ends_the_turn_witness :
  snd (run_tool_calls Scenario.lib Scenario.one_link Scenario.says_malformed
         (Scenario.world_of (Scenario.turn Scenario.says_malformed)) [])
  = Raises (ValueError
      "Expecting property name enclosed in double quotes: line 1 column 2 (char 1)").
Proof.
  exact (proj2 (proj1
    (value_error_ends_the_turn Scenario.lib
       (Scenario.agent (Scenario.turn Scenario.says_malformed)) Scenario.one_link
       (Some "On it.")
       {| fn_name := "visit_url"; fn_arguments := Scenario.args_malformed |} []
       (Scenario.world_of (Scenario.turn Scenario.says_malformed)) []
       "Expecting property name enclosed in double quotes: line 1 column 2 (char 1)"))
    (or_introl eq_refl)).
Defined.


(* ===================================================================== *)
(** ** The allow list and the route handler *)
(* ===================================================================== *)

(** X1.  An allow list given as a list of prefixes admits a url exactly
    when the url starts with one of its entries: an empty list admits
    nothing, and a list holding the empty string admits everything. *)
Theorem closure_allows_by_prefix (navigation_allow_list : list string) (url : string) :
  (_closure navigation_allow_list url = true <->
   exists entry rest, In entry navigation_allow_list /\ url = entry ++ rest)
  /\ _closure [] url = false
  /\ (In "" navigation_allow_list -> _closure navigation_allow_list url = true).
Proof.
  assert (H : _closure navigation_allow_list url = true <->
              exists entry rest, In entry navigation_allow_list /\ url = entry ++ rest).
  { unfold _closure. rewrite existsb_exists. split.
    - intros [entry [Hin Hp]]. apply startswith_iff in Hp. destruct Hp as [rest ->].
      exists entry, rest. split; [exact Hin | reflexivity].
    - intros [entry [rest [Hin ->]]]. exists entry. split; [exact Hin|].
      apply startswith_iff. exists rest. reflexivity. }
  split; [exact H|]. split; [reflexivity|].
  intros Hin. apply H. exists "", url. split; [exact Hin | reflexivity].
Qed.

Lemma prefix_iff (p s : string) :
  String.prefix p s = true <-> exists rest, s = p ++ rest.
Proof. exact (startswith_iff s p). Qed.

Lemma contains_iff (sub s : string) :
  PyText.contains sub s = true <-> exists a b, s = a ++ sub ++ b.
Proof.
  induction s as [|x s IH].
  - cbn [PyText.contains]. destruct (String.prefix sub "") eqn:E.
    + split; [intros _|reflexivity]. apply prefix_iff in E. destruct E as [rest E].
      exists "", rest. exact E.
    + split; [discriminate|]. intros [a [b H]].
      destruct a; [|discriminate H]. simpl in H.
      assert (String.prefix sub "" = true) by (apply prefix_iff; exists b; exact H).
      congruence.
  - cbn [PyText.contains]. destruct (String.prefix sub (String x s)) eqn:E.
    + split; [intros _|reflexivity]. apply prefix_iff in E. destruct E as [rest E].
      exists "", rest. exact E.
    + rewrite IH. split.
      * intros [a [b ->]]. exists (String x a), b. reflexivity.
      * intros [[|y a] [b H]]; simpl in H.
        -- assert (String.prefix sub (String x s) = true)
             by (apply prefix_iff; exists b; exact H).
           congruence.
        -- inversion H; subst. exists a, b. reflexivity.
Qed.

(** X2.  The route handler lets a request through untouched exactly when
    its url is [about:blank] or on the allow list.  Any other request is
    fetched all the same; if the fetch fails the handler fails with it;
    if the answer's content type mentions [html], in any case of letters,
    the handler serves status 403 with the page that links back to the
    start page, and otherwise it hands on the fetched response, unchanged:
    only documents are blocked. *)
Theorem route_handler_blocks_documents_only (self : Agent) (start_page url : string)
    (fetch_answer : result fetched) :
  let run := _route_handler self start_page url fetch_answer in
  let allowed := url = "about:blank" \/ _navigation_allow_list self url = true in
  (allowed <-> fst run = [continue_])
  /\ (allowed -> snd run = Returns tt)
  /\ (~ allowed <-> exists rest, fst run = fetch :: rest)
  /\ (~ allowed -> forall e, fetch_answer = Raises e -> run = ([fetch], Raises e))
  /\ (~ allowed -> forall response, fetch_answer = Returns response ->
      let content_type :=
        PyText.lower (headers_get (headers response) "content-type" "") in
      ((exists a b, content_type = a ++ "html" ++ b) ->
         run = ([fetch; fulfill 403 "text/html" (navigation_blocked start_page)], Returns tt))
      /\ (~ (exists a b, content_type = a ++ "html" ++ b) ->
         run = ([fetch; fulfill_response response], Returns tt))).
Proof.
  intros run allowed. subst run allowed. unfold _route_handler.
  destruct (String.eqb url "about:blank" || _navigation_allow_list self url) eqn:E.
  - assert (Ha : url = "about:blank" \/ _navigation_allow_list self url = true).
    { apply orb_true_iff in E. destruct E as [E|E]; [left; apply String.eqb_eq, E | right; exact E]. }
    split; [split; [intros _; reflexivity | intros _; exact Ha]|].
    split; [intros _; reflexivity|].
    split; [split; [intros Hn; exfalso; exact (Hn Ha) | intros [rest H]; discriminate H]|].
    split; intros Hn; exfalso; exact (Hn Ha).
  - assert (Hn : ~ (url = "about:blank" \/ _navigation_allow_list self url = true)).
    { apply orb_false_iff in E. destruct E as [E1 E2].
      intros [H|H]; [apply String.eqb_eq in H; congruence | congruence]. }
    split.
    { split; [intros H; exfalso; exact (Hn H)|].
      destruct fetch_answer as [response|e]; [|discriminate].
      destruct (PyText.contains _ _); discriminate. }
    split; [intros H; exfalso; exact (Hn H)|].
    split.
    { split; [intros _|intros _; exact Hn].
      destruct fetch_answer as [response|e]; [|eexists; reflexivity].
      destruct (PyText.contains _ _); eexists; reflexivity. }
    split; [intros _ e ->; reflexivity|].
    intros _ response ->. cbv zeta.
    destruct (PyText.contains "html" _) eqn:Ec.
    + split; [reflexivity|]. intros H. exfalso. apply H. apply contains_iff. exact Ec.
    + split; [|reflexivity]. intros H. apply contains_iff in H. congruence.
Qed.

(** The blocked page names the start page twice: as the target of the
    link and as its text. *)
Lemma navigation_blocked_links_home (start_page : string) :
  exists before after,
    navigation_blocked start_page
    = before ++ "<a href=" ++ Py.dq ++ start_page ++ Py.dq ++ ">" ++ start_page ++ "</a>" ++ after.
Proof.
  unfold navigation_blocked.
  exists ("<html><body><h1>Navigation Blocked</h1><p>Navigation was blocked by the client. Click the <a href="
            ++ Py.dq ++ "javascript: history.back()" ++ Py.dq
            ++ ">browser back button</a> to go back, return Home to "),
         ".</p></body></html>".
  rewrite !append_assoc. reflexivity.
Qed.

(* ===================================================================== *)
(** ** Launching the browser *)
(* ===================================================================== *)

(** X3.  Without a data directory the constructor launches a browser only
    for the channels [chromium] and [firefox] and raises
    [NotImplementedError] for every other one, the default sentinel
    included; with a data directory every other channel leaves the agent
    without a context.  Hence every launch that happens is passed its
    channel by name. *)
Theorem choose_context_needs_a_named_channel (headless : bool) (browser_channel : channel)
    (browser_data_dir : option string) :
  let supported := browser_channel = Channel "chromium" \/ browser_channel = Channel "firefox" in
  (browser_data_dir = None ->
     (supported <-> exists c, choose_context headless browser_channel None = inl c)
     /\ (~ supported ->
         choose_context headless browser_channel None
         = inr (NotImplementedError browser_channel)))
  /\ choose_context headless DEFAULT_CHANNEL None = inr (NotImplementedError DEFAULT_CHANNEL)
  /\ (forall dir, ~ supported ->
        choose_context headless browser_channel (Some dir) = inl NoContext)
  /\ (forall c args,
        choose_context headless browser_channel browser_data_dir = inl c ->
        launch_args_of c = Some args ->
        exists name,
          browser_channel = Channel name
          /\ (name = "chromium" \/ name = "firefox")
          /\ args = {| headless := headless; channel_arg := Some name |}).
Proof.
  intros supported. subst supported.
  assert (Hc : forall name, channel_is browser_channel name = true <-> browser_channel = Channel name).
  { intros name. destruct browser_channel as [|c]; simpl.
    - split; discriminate.
    - rewrite String.eqb_eq. split; [intros ->; reflexivity | intros H; inversion H; reflexivity]. }
  unfold choose_context.
  destruct (channel_is browser_channel "chromium") eqn:E1.
  { apply Hc in E1. subst browser_channel.
    split.
    { intros _. split.
      - split; [intros _; eexists; reflexivity | intros _; left; reflexivity].
      - intros Hn. exfalso. apply Hn. left. reflexivity. }
    split; [reflexivity|].
    split; [intros dir Hn; exfalso; apply Hn; left; reflexivity|].
    intros c args H H0. exists "chromium".
    destruct browser_data_dir; inversion H; subst; simpl in H0; inversion H0; subst;
      (split; [reflexivity|]; split; [left; reflexivity | reflexivity]). }
  destruct (channel_is browser_channel "firefox") eqn:E2.
  { apply Hc in E2. subst browser_channel.
    split.
    { intros _. split.
      - split; [intros _; eexists; reflexivity | intros _; right; reflexivity].
      - intros Hn. exfalso. apply Hn. right. reflexivity. }
    split; [reflexivity|].
    split; [intros dir Hn; exfalso; apply Hn; right; reflexivity|].
    intros c args H H0. exists "firefox".
    destruct browser_data_dir; inversion H; subst; simpl in H0; inversion H0; subst;
      (split; [reflexivity|]; split; [right; reflexivity | reflexivity]). }
  assert (Hn : ~ (browser_channel = Channel "chromium" \/ browser_channel = Channel "firefox")).
  { intros [H|H]; apply Hc in H; congruence. }
  split.
  { intros _. split.
    - split; [intros H; exfalso; exact (Hn H) | intros [c H]; discriminate H].
    - intros _. reflexivity. }
  split; [reflexivity|].
  split; [intros dir _; reflexivity|].
  intros c args H H0.
  destruct browser_data_dir; inversion H; subst; simpl in H0; discriminate H0.
Qed.

(* ===================================================================== *)
(** ** Images as data uris *)
(* ===================================================================== *)

(** X4.  [_image_to_data_uri] turns bytes, a PIL image and a stream into
    the data uri of their content, and agrees on bytes and PIL images with
    what the module's own calls get; given a [BytesIO] it returns nothing:
    it fails on the unassigned [image_buffer], whatever the stream holds. *)
Theorem image_to_data_uri_fails_on_BytesIO (lib : Library) (image : image_input) :
  (forall p, image_to_data_uri_of lib (input_of_picture p) = inl (_image_to_data_uri lib p))
  /\ ((exists contents, image = FromBytesIO contents) <->
      image_to_data_uri_of lib image = inr (UnboundLocalError "image_buffer"))
  /\ (forall uri, image_to_data_uri_of lib image = inl uri ->
        exists bytes, uri = "data:image/png;base64," ++ b64encode lib bytes).
Proof.
  split; [intros [b|png]; reflexivity|]. split.
  - split.
    + intros [contents ->]. reflexivity.
    + destruct image; simpl; intros H; try discriminate H. eexists; reflexivity.
  - intros uri H. destruct image; simpl in H; inversion H; eexists; reflexivity.
Qed.

(* ===================================================================== *)
(** ** More on the token budget *)
(* ===================================================================== *)

Lemma accumulate_extends (lib : Library) (token_limit : Z) (lines : list string)
    (buffer : string) :
  exists more, accumulate lib token_limit buffer lines = buffer ++ more.
Proof.
  destruct (accumulate_keeps_a_prefix lib token_limit lines buffer) as [k [_ [H _]]].
  exists (first_lines k lines). exact H.
Qed.

Lemma accumulate_grows_with_the_limit (lib : Library) (small large : Z)
    (lines : list string) (buffer : string) :
  small <= large ->
  exists more,
    accumulate lib large buffer lines = accumulate lib small buffer lines ++ more.
Proof.
  intros Hle. revert buffer. induction lines as [|line rest IH]; intros buffer.
  - exists "". simpl. now rewrite append_nil_r.
  - simpl.
    destruct (Z.gtb_spec (count_token lib (buffer ++ line) + 1024) small) as [Hs|Hs].
    + destruct (Z.gtb_spec (count_token lib (buffer ++ line) + 1024) large) as [Hl|Hl].
      * exists "". now rewrite append_nil_r.
      * destruct (accumulate_extends lib large rest (buffer ++ line)) as [more H].
        exists (line ++ more). rewrite H. apply append_assoc.
    + destruct (Z.gtb_spec (count_token lib (buffer ++ line) + 1024) large) as [Hl|Hl];
        [lia | apply IH].
Qed.

(** X5.  Raising the token limit never shortens what [_summarize_page]
    keeps of a page: the buffer accumulated under the smaller limit is the
    beginning of the one accumulated under the larger. *)
Theorem larger_limit_keeps_more (lib : Library) (small large : Z) (page_markdown : string) :
  small <= large ->
  exists more,
    accumulate lib large "" (Py.re_split_eol page_markdown)
    = accumulate lib small "" (Py.re_split_eol page_markdown) ++ more.
Proof. intros Hle. apply accumulate_grows_with_the_limit. exact Hle. Qed.

Lemma larger_limit_keeps_more_witness :
  exists more,
    accumulate Scenario.lib 1040 "" (Py.re_split_eol ("Example Domain" ++ Py.nl ++ "More."))
    = accumulate Scenario.lib 1030 "" (Py.re_split_eol ("Example Domain" ++ Py.nl ++ "More."))
      ++ more.
Proof.
  apply larger_limit_keeps_more. lia.
Defined.

Lemma accumulate_nothing_fits (lib : Library) (token_limit : Z) (lines : list string) :
  (forall s, 0 <= count_token lib s) -> token_limit < 1024 ->
  accumulate lib token_limit "" lines = "".
Proof.
  intros Hpos Hlt. destruct lines as [|line rest]; [reflexivity|]. simpl.
  specialize (Hpos line).
  destruct (Z.gtb_spec (count_token lib line + 1024) token_limit); [reflexivity | lia].
Qed.

(** X6.  With a token limit below 1024, and a token count that is never
    negative, [_summarize_page] keeps nothing of any page: it never calls
    the model, and if the page could be read it returns "Nothing to
    summarize.". *)
Theorem limit_below_headroom_summarizes_nothing (lib : Library) (question : option string)
    (token_limit : Z) (w : world) (h : trace) :
  (forall s, 0 <= count_token lib s) ->
  token_limit < 1024 ->
  let run := _summarize_page lib question token_limit w h in
  model_calls (fst run) = 0%nat
  /\ (returns (snd run) = true -> snd run = Returns "Nothing to summarize.")
  /\ (forall page_markdown, In page_markdown (markdown_read (fst run)) ->
        snd run = Returns "Nothing to summarize.").
Proof.
  intros Hpos Hlt run. subst run. unfold _summarize_page. rewrite bind_run.
  destruct (_get_page_markdown w h) as [t1 r1] eqn:E1. cbn [fst snd].
  assert (Hsilent : model_calls t1 = 0%nat
                    /\ forall md, In md (markdown_read t1) -> returns r1 = true).
  { unfold _get_page_markdown in E1. run_in E1; unfold model_calls, markdown_read; simpl;
      (split; [reflexivity|]); intros md Hin; try contradiction; try reflexivity.
    destruct (w string _ (ConvertStream _ _)); [reflexivity | contradiction]. }
  destruct Hsilent as [H0 Hread].
  destruct r1 as [md|e]; cbn [fst snd].
  - cbv zeta. rewrite (accumulate_nothing_fits lib token_limit _ Hpos Hlt).
    change (Py.strip "") with "". cbn. rewrite app_nil_r.
    split; [exact H0|]. split; [reflexivity|]. intros; reflexivity.
  - split; [exact H0|]. split; [discriminate|].
    intros md Hin. specialize (Hread md Hin). discriminate Hread.
Qed.

Lemma limit_below_headroom_summarizes_nothing_witness :
  snd (_summarize_page Scenario.lib None 1000
         (Scenario.world_of (Scenario.turn Scenario.says_summarize)) [])
  = Returns "Nothing to summarize.".
Proof.
  assert (Hpos : forall s, 0 <= count_token Scenario.lib s)
    by (intros s; unfold Scenario.lib, Scenario.count_chars; simpl; lia).
  assert (Hlt : 1000 < 1024) by lia.
  exact (proj1 (proj2 (limit_below_headroom_summarizes_nothing Scenario.lib None 1000
                         (Scenario.world_of (Scenario.turn Scenario.says_summarize)) []
                         Hpos Hlt)) eq_refl).
Defined.






(* ===================================================================== *)
(** ** The white space of the observation *)
(* ===================================================================== *)






(* ===================================================================== *)
(** ** Scrollable elements: the labels and the tools *)
(* ===================================================================== *)

Lemma has_scrollable_elements_iff (rs : rects) (visible_rects : list string) :
  has_scrollable_elements rs visible_rects = true <->
  exists r e, In r visible_rects /\ rects_get rs r = Some e /\ v_scrollable e = true.
Proof.
  unfold has_scrollable_elements. rewrite existsb_exists. split.
  - intros [r [Hin H]]. destruct (rects_get rs r) as [e|] eqn:E; [|discriminate].
    exists r, e. repeat split; assumption.
  - intros [r [e [Hin [E H]]]]. exists r. split; [exact Hin|]. rewrite E. exact H.
Qed.

(** X9.  The two element scrolls are offered as tools exactly when some
    visible element that the page's rectangles know is scrollable, that
    is, exactly when the label of some listed element advertises them:
    the actions of a label are ['click'] or ['input_text'] (for the roles
    textbox, searchbox and search), followed by the two scrolls exactly
    for a scrollable element. *)
Theorem scroll_tools_follow_the_labels (self : Agent) (vp : viewport) (rs : rects)
    (visible_rects : list string) :
  let tools := offered_tools self vp (has_scrollable_elements rs visible_rects) in
  let first_action := fun e =>
    if existsb (String.eqb (role e)) ["textbox"; "searchbox"; "search"]
    then "'input_text'" else "'click'" in
  let advertises_scrolls := fun e =>
    label_actions e = "[" ++ first_action e ++ ",'scroll_element_up','scroll_element_down']" in
  (forall e, (v_scrollable e = true -> advertises_scrolls e)
             /\ (v_scrollable e = false -> label_actions e = "[" ++ first_action e ++ "]")
             /\ (advertises_scrolls e -> v_scrollable e = true))
  /\ (In TOOL_SCROLL_ELEMENT_UP tools <->
      exists r e, In r visible_rects /\ rects_get rs r = Some e /\ advertises_scrolls e)
  /\ (In TOOL_SCROLL_ELEMENT_UP tools <-> In TOOL_SCROLL_ELEMENT_DOWN tools).
Proof.
  intros tools first_action advertises_scrolls.
  assert (Hlabel : forall e,
            (v_scrollable e = true -> advertises_scrolls e)
            /\ (v_scrollable e = false -> label_actions e = "[" ++ first_action e ++ "]")
            /\ (advertises_scrolls e -> v_scrollable e = true)).
  { intros e. subst advertises_scrolls first_action. unfold label_actions. cbv beta.
    destruct (existsb (String.eqb (role e)) ["textbox"; "searchbox"; "search"]);
      destruct (v_scrollable e); simpl;
      (split; [intros H; first [reflexivity | discriminate H]|]);
      (split; [intros H; first [reflexivity | discriminate H]|]);
      intros H; first [reflexivity | discriminate H]. }
  split; [exact Hlabel|].
  assert (Htools : forall t, t = TOOL_SCROLL_ELEMENT_UP \/ t = TOOL_SCROLL_ELEMENT_DOWN ->
            (In t tools <-> has_scrollable_elements rs visible_rects = true)).
  { intros t Ht. subst tools. unfold offered_tools.
    destruct (_navigation_allow_list self "https://www.bing.com/");
      destruct (pageTop vp >? 5); destruct (pageTop vp + height vp + 5 <? scrollHeight vp);
      destruct (has_scrollable_elements rs visible_rects); simpl;
      destruct Ht as [-> | ->]; intuition discriminate. }
  split.
  - rewrite (Htools _ (or_introl eq_refl)), has_scrollable_elements_iff. split.
    + intros [r [e [Hin [E H]]]]. exists r, e. repeat split; try assumption.
      apply (Hlabel e). exact H.
    + intros [r [e [Hin [E H]]]]. exists r, e. repeat split; try assumption.
      apply (Hlabel e). exact H.
  - rewrite (Htools _ (or_introl eq_refl)), (Htools _ (or_intror eq_refl)). reflexivity.
Qed.

(* ===================================================================== *)
(** ** The getters *)
(* ===================================================================== *)

(** X10.  Each of the three getters answers what its own query answers,
    and fails exactly when that query fails: the helper script is read
    and evaluated first, in at most two calls, and whatever goes wrong
    there changes neither the query nor the outcome. *)
Theorem getters_answer_their_query (w : world) (h : trace) :
  let t0 := fst (evaluate_page_script w h) in
  let after := (h ++ t0)%list in
  forallb is_page_script t0 = true
  /\ (List.length t0 <= 2)%nat
  /\ _get_interactive_rects w h
     = ((t0 ++ [Event GetInteractiveRects (w rects after GetInteractiveRects)])%list,
        w rects after GetInteractiveRects)
  /\ _get_visual_viewport w h
     = ((t0 ++ [Event GetVisualViewport (w viewport after GetVisualViewport)])%list,
        w viewport after GetVisualViewport)
  /\ _get_focused_rect_id w h
     = ((t0 ++ [Event GetFocusedElementId (w (option string) after GetFocusedElementId)])%list,
        w (option string) after GetFocusedElementId).
Proof.
  intros t0 after. subst t0 after.
  unfold _get_interactive_rects, _get_visual_viewport, _get_focused_rect_id.
  rewrite !bind_run, !call_run.
  pose proof (evaluate_page_script_never_raises w h) as Hr.
  destruct (evaluate_page_script w h) as [t0 r0] eqn:E. cbn [fst snd] in *.
  destruct r0 as [[]|e]; [|discriminate Hr].
  assert (Ht : forallb is_page_script t0 = true /\ (List.length t0 <= 2)%nat).
  { unfold evaluate_page_script in E. run_paths E; inversion E; subst; simpl;
      split; first [reflexivity | lia]. }
  destruct Ht as [Hs Hl].
  split; [exact Hs|]. split; [exact Hl|].
  cbn [fst snd]. repeat split; reflexivity.
Qed.

(* ===================================================================== *)
(** ** Clicking and filling *)
(* ===================================================================== *)

Ltac unfold_click :=
  unfold _click_id, _on_new_page, _log_to_console;
  cbv beta iota zeta delta [bind call try_except ret raise lift when
                            except_all except_TimeoutError except_ValueError].

(** X11.  [_click_id] clicks at most once, and only an element it has
    found: a click is always the third call, after [wait_for] has returned
    and [bounding_box] has answered a box, and it lands on the centre of
    that box; nothing clicks after it. *)
Theorem click_id_clicks_the_centre_once (identifier : string) (w : world) (h : trace) :
  let t := fst (_click_id identifier w h) in
  (clicks t <= 1)%nat
  /\ forall ev x y, In ev t -> click_of ev = Some (x, y) ->
       exists b rest,
         firstn 2 t
         = [Event (LocatorWaitFor (locator identifier) 100) (Returns tt);
            Event (LocatorBoundingBox (locator identifier)) (Returns (Some b))]
         /\ skipn 2 t = ev :: rest
         /\ x = (box_x b + box_width b / (2 # 1))%Q
         /\ y = (box_y b + box_height b / (2 # 1))%Q
         /\ clicks rest = 0%nat.
Proof.
  intros t. subst t.
  destruct (_click_id identifier w h) as [t r] eqn:E. cbn [fst].
  unfold _click_id, _on_new_page, _log_to_console in E.
  run_in E; repeat match goal with a : unit |- _ => destruct a end;
    (split; [unfold clicks; simpl; lia|]);
    intros ev cx cy Hin Hc; simpl in Hin;
    repeat (destruct Hin as [<-|Hin];
            [simpl in Hc; first [discriminate Hc
                                | inversion Hc; subst; do 2 eexists;
                                  repeat split; reflexivity]|]);
    contradiction.
Qed.

(** The theorem on the page of the example, where the element is found
    and the click opens no popup. *)
Lemma click_id_clicks_the_centre_once_witness :
  exists b rest,
    firstn 2 (fst (_click_id "7" (Scenario.world_of (Scenario.turn Scenario.says_click)) []))
    = [Event (LocatorWaitFor (locator "7") 100) (Returns tt);
       Event (LocatorBoundingBox (locator "7")) (Returns (Some b))]
    /\ skipn 2 (fst (_click_id "7" (Scenario.world_of (Scenario.turn Scenario.says_click)) []))
       = Event (MouseClick (120 # 2) (80 # 2)) (Returns tt) :: rest
    /\ (120 # 2 = box_x b + box_width b / (2 # 1))%Q
    /\ (80 # 2 = box_y b + box_height b / (2 # 1))%Q
    /\ clicks rest = 0%nat.
Proof.
  apply (proj2 (click_id_clicks_the_centre_once "7"
                  (Scenario.world_of (Scenario.turn Scenario.says_click)) [])
           (Event (MouseClick (120 # 2) (80 # 2)) (Returns tt)) (120 # 2)%Q (80 # 2)%Q).
  - vm_compute. right. right. left. reflexivity.
  - reflexivity.
Defined.

(** X12.  After its click, [_click_id] forgives every timeout: a
    [TimeoutError] of the click, of the wait for a popup or of any step
    of adopting the new page ends the method quietly, while any other
    failure there is raised as it is.  The method returns only after a
    click, and lets a [TimeoutError] out only when [bounding_box] itself
    timed out. *)
Theorem click_id_forgives_timeouts_after_the_click (identifier : string)
    (w : world) (h : trace) :
  let t := fst (_click_id identifier w h) in
  let r := snd (_click_id identifier w h) in
  (r = Raises TimeoutError ->
     ends_with_bounding_box t = true /\ last_failure t = Some TimeoutError)
  /\ (clicks t = 1%nat ->
      (last_failure t = None \/ last_failure t = Some TimeoutError -> r = Returns tt)
      /\ (forall x, last_failure t = Some x -> x <> TimeoutError -> r = Raises x))
  /\ (r = Returns tt -> clicks t = 1%nat).
Proof.
  intros t r. subst t r.
  destruct (_click_id identifier w h) as [t r] eqn:E. cbn [fst snd].
  unfold _click_id, _on_new_page, _log_to_console in E.
  run_in E; repeat match goal with a : unit |- _ => destruct a end;
    unfold clicks; simpl;
    (split; [intros Hr; first [discriminate Hr | inversion Hr; subst; split; reflexivity]|]);
    (split;
     [intros Hc;
      first [discriminate Hc
            | split;
              [intros [H|H]; first [reflexivity | discriminate H]
              | intros x H Hne;
                first [discriminate H
                      | inversion H; subst;
                        first [reflexivity | exfalso; apply Hne; reflexivity]]]]|]);
    intros Hr; first [reflexivity | discriminate Hr].
Qed.

(** The theorem on the page of the example: the wait for a popup times
    out after the click, and the method returns. *)
Lemma click_id_forgives_timeouts_after_the_click_witness :
  last_failure (fst (_click_id "7" (Scenario.world_of (Scenario.turn Scenario.says_click)) []))
  = Some TimeoutError
  /\ snd (_click_id "7" (Scenario.world_of (Scenario.turn Scenario.says_click)) [])
     = Returns tt.
Proof.
  split; [reflexivity|].
  exact (proj1 (proj1 (proj2 (click_id_forgives_timeouts_after_the_click "7"
                                (Scenario.world_of (Scenario.turn Scenario.says_click)) []))
                  eq_refl)
           (or_intror eq_refl)).
Defined.

(** X13.  [_fill_id] types only into an element it has found and presses
    Enter only after the value was filled in: the key pressed is always
    Enter, as the fourth call, after [wait_for], [focus] and [fill] of the
    value have returned.  It returns exactly when all four calls return,
    and apart from the lookup's timeout, raised as [ValueError], it raises
    just what its failing call raised: no timeout is forgiven here. *)
Theorem fill_id_submits_after_filling (identifier value : string) (w : world) (h : trace) :
  let t := fst (_fill_id identifier value w h) in
  let r := snd (_fill_id identifier value w h) in
  let target := locator identifier in
  let typed := [Event (LocatorWaitFor target 100) (Returns tt);
                Event (LocatorFocus target) (Returns tt);
                Event (LocatorFill target value) (Returns tt)] in
  (r = Returns tt <-> t = (typed ++ [Event (KeyboardPress "Enter") (Returns tt)])%list)
  /\ (forall ev key, In ev t -> key_of ev = Some key ->
        key = "Enter" /\ t = (typed ++ [ev])%list)
  /\ (forall x, r = Raises x ->
        (x = ValueError "No such element." /\ last_failure t = Some TimeoutError
         /\ ends_with_lookup t = true)
        \/ last_failure t = Some x).
Proof.
  intros t r target typed. subst t r target typed.
  destruct (_fill_id identifier value w h) as [t r] eqn:E. cbn [fst snd].
  unfold _fill_id in E. cbv zeta in E.
  cbv beta iota zeta delta [bind call try_except ret raise lift when
                            except_all except_TimeoutError except_ValueError] in E.
  repeat run_step_in E.
  all: repeat match goal with a : unit |- _ => destruct a end.
  all: try (destruct (w unit _ (KeyboardPress "Enter")) as [[]|x0] eqn:Ek).
  all: injection E as <- <-.
  all: simpl.
  all: (split; [split; intros H; first [reflexivity | discriminate H]|]).
  all: (split;
        [intros ev key Hin Hk; simpl in Hin;
         repeat (destruct Hin as [<-|Hin];
                 [simpl in Hk; first [discriminate Hk
                                     | inversion Hk; subst; split; reflexivity]|]);
         contradiction|]).
  all: intros x H; first [discriminate H | inversion H; subst];
       first [right; reflexivity | left; repeat split; reflexivity].
Qed.

(** The theorem on the page of the example. *)
Lemma fill_id_submits_after_filling_witness :
  fst (_fill_id "7" "rocq" (Scenario.world_of (Scenario.turn Scenario.says_click)) [])
  = [Event (LocatorWaitFor (locator "7") 100) (Returns tt);
     Event (LocatorFocus (locator "7")) (Returns tt);
     Event (LocatorFill (locator "7") "rocq") (Returns tt);
     Event (KeyboardPress "Enter") (Returns tt)].
Proof.
  exact (proj1 (proj1 (fill_id_submits_after_filling "7" "rocq"
                         (Scenario.world_of (Scenario.turn Scenario.says_click)) []))
           eq_refl).
Defined.

(* ===================================================================== *)
(** ** The title of the page to summarize *)
(* ===================================================================== *)


(* ===================================================================== *)
(** ** A page without height *)
(* ===================================================================== *)

(** X15.  When the page answers a viewport whose [scrollHeight] is 0, the
    final phase of the turn fails with [ZeroDivisionError] on the first
    percentage, although no call has failed, and before it takes its
    screenshot. *)
Theorem report_divides_by_the_scroll_height (lib : Library) (self : Agent)
    (message : response) (action_description : string) (w : world) (h : trace)
    (vp : viewport) :
  let t := fst (report lib self message action_description w h) in
  let r := snd (report lib self message action_description w h) in
  In vp (viewports_read t) ->
  scrollHeight vp = 0 ->
  r = Raises ZeroDivisionError
  /\ existsb is_screenshot t = false
  /\ forallb (fun e => negb (has_failed e) || is_page_script e) t = true.
Proof.
  intros t r. subst t r.
  destruct (report lib self message action_description w h) as [t r] eqn:E. cbn [fst snd].
  unfold report, _get_visual_viewport, evaluate_page_script, when_debugging in E.
  cbv beta iota zeta delta [bind call try_except ret raise lift when
                            except_all except_TimeoutError except_ValueError] in E.
  intros Hin Hz.
  repeat (run_step_in E;
          try match goal with
              | Ep : percent_of _ _ = Returns _ |- _ =>
                  apply percent_of_returns in Ep; destruct Ep as [? ?]; subst
              end;
          try (injection E as <- <-; simpl in Hin;
               first [contradiction | destruct Hin as [<-|[]]; contradiction])).
  all: injection E as <- <-; simpl in Hin; try contradiction.
  all: destruct Hin as [<-|[]]; try contradiction.
  all: match goal with
       | Ep : percent_of _ _ = Raises _ |- _ =>
           unfold percent_of in Ep; rewrite Hz in Ep; simpl in Ep; inversion Ep; subst
       end.
  all: repeat split; reflexivity.
Qed.

(* ===================================================================== *)
(** ** Tool calls without their argument *)
(* ===================================================================== *)

(** X16.  A [visit_url] call whose arguments hold no string under [url],
    or a [web_search] call with no string under [query], is not answered
    with an error message: once the arguments are decoded and the call is
    printed, [startswith] fails on the value with [AttributeError], and
    [quote_plus] with [TypeError]; neither is a [ValueError], so the
    exception leaves [generate_surfer_reply], and the page is not
    touched. *)
Theorem navigation_without_its_argument_raises (lib : Library) (self : Agent) (rs : rects)
    (said : option string) (arguments : string) (rest : list tool_call) (args : jdict)
    (w : world) (h : trace) :
  json_loads lib arguments = Returns args ->
  let turn := fun name =>
    after_response lib self rs
      {| content := said;
         tool_calls := {| fn_name := name; fn_arguments := arguments |} :: rest |} w h in
  let quiet := fun t => forallb (fun e => negb (has_failed e)) t = true in
  let untouched := fun t => forallb (fun e => negb (is_browser_action e)) t = true in
  ((forall url, args_get args "url" <> JStr url) ->
     untouched (fst (turn "visit_url"))
     /\ (quiet (fst (turn "visit_url")) -> snd (turn "visit_url") = Raises AttributeError))
  /\ ((forall query, args_get args "query" <> JStr query) ->
      untouched (fst (turn "web_search"))
      /\ (quiet (fst (turn "web_search")) -> snd (turn "web_search") = Raises TypeError)).
Proof.
  intros Hjson turn quiet untouched. subst turn quiet untouched. cbv beta.
  split; intros Hmissing.
  - destruct (after_response lib self rs _ w h) as [t r] eqn:E. cbn [fst snd].
    unfold after_response, act, run_tool_calls, _log_to_console in E.
    cbn [tool_calls fn_name fn_arguments] in E. rewrite Hjson in E.
    unfold dispatch in E. cbn [String.eqb Ascii.eqb Bool.eqb] in E.
    run_paths E; try (exfalso; eapply Hmissing; reflexivity);
      injection E as <- <-; simpl; (split; [reflexivity|]); intros Hq;
      first [reflexivity | discriminate Hq].
  - destruct (after_response lib self rs _ w h) as [t r] eqn:E. cbn [fst snd].
    unfold after_response, act, run_tool_calls, _log_to_console in E.
    cbn [tool_calls fn_name fn_arguments] in E. rewrite Hjson in E.
    unfold dispatch in E. cbn [String.eqb Ascii.eqb Bool.eqb] in E.
    run_paths E; try (exfalso; eapply Hmissing; reflexivity);
      injection E as <- <-; simpl; (split; [reflexivity|]); intros Hq;
      first [reflexivity | discriminate Hq].
Qed.

(** The theorem on a [visit_url] call with empty arguments. *)
Lemma navigation_without_its_argument_raises_witness :
  snd (after_response Scenario.lib
         (Scenario.agent (Scenario.turn (Scenario.tool "visit_url" Scenario.args_empty)))
         Scenario.one_link (Scenario.tool "visit_url" Scenario.args_empty)
         (Scenario.world_of (Scenario.turn (Scenario.tool "visit_url" Scenario.args_empty))) [])
  = Raises AttributeError.
Proof.
  assert (Hjson : json_loads Scenario.lib Scenario.args_empty = Returns []) by reflexivity.
  assert (Hmissing : forall url, args_get [] "url" <> JStr url) by (intros url H; discriminate H).
  exact (proj2 (proj1 (navigation_without_its_argument_raises Scenario.lib
                         (Scenario.agent (Scenario.turn (Scenario.tool "visit_url" Scenario.args_empty)))
                         Scenario.one_link (Some "On it.") Scenario.args_empty [] []
                         (Scenario.world_of (Scenario.turn (Scenario.tool "visit_url" Scenario.args_empty)))
                         [] Hjson) Hmissing) eq_refl).
Defined.

(* ===================================================================== *)
(** ** Turns without a tool, and what a turn returns *)
(* ===================================================================== *)

Lemma observations_do_not_act (t : trace) :
  forallb is_observation t = true ->
  forallb (fun e => negb (is_browser_action e)) t = true.
Proof.
  rewrite !forallb_forall. intros H e He. specialize (H e He).
  unfold is_observation in H. apply andb_true_iff in H. tauto.
Qed.

(** Without tool calls the [try] block does nothing and the turn goes on
    to observe the page. *)
Lemma after_response_without_tool_calls (lib : Library) (self : Agent) (rs : rects)
    (message : response) (w : world) (h : trace) :
  tool_calls message = [] ->
  after_response lib self rs message w h = report lib self message "" w h.
Proof.
  intros Hnone. unfold after_response, act, run_tool_calls. rewrite Hnone.
  cbv beta iota zeta delta [bind call try_except ret raise lift when
                            except_all except_TimeoutError except_ValueError].
  simpl app. rewrite !app_nil_r.
  destruct (report lib self message "" w h) as [t r]. reflexivity.
Qed.

(** X17.  A turn in which the model selects no tool (it answers in words,
    or is never reached, or fails) does nothing to the page: no
    navigation, scroll, click or key press occurs in it. *)
Theorem turn_without_tool_leaves_the_page_alone (lib : Library) (self : Agent)
    (messages : option (list chat_message)) (w : world) (h : trace) :
  let t := fst (generate_surfer_reply lib self messages w h) in
  selected_tool t = None ->
  forallb (fun e => negb (is_browser_action e)) t = true.
Proof.
  intros t. subst t. unfold generate_surfer_reply. rewrite bind_run.
  pose proof (prepare_request_observes lib self messages w h) as Hobs.
  pose proof (prepare_request_silent lib self messages w h) as Hsil.
  destruct (prepare_request lib self messages w h) as [t1 [[[rs history] tools]|e]];
    cbn [fst snd] in *.
  2:{ intros _. apply observations_do_not_act. exact Hobs. }
  rewrite bind_run, call_run. cbn [fst snd].
  destruct (w response (h ++ t1)%list (ClientCreate history (Some tools)))
    as [message|e]; cbn [fst snd].
  2:{ intros _. rewrite forallb_app. rewrite (observations_do_not_act _ Hobs). reflexivity. }
  cbn [app]. rewrite selected_tool_after_silence by exact Hsil.
  destruct (tool_calls message) as [|first rest] eqn:Etc; [|discriminate].
  intros _. rewrite after_response_without_tool_calls by exact Etc.
  pose proof (report_observes lib self message "" w
                ((h ++ t1) ++ [Event (ClientCreate history (Some tools)) (Returns message)])%list)
    as Hobs3.
  cbn beta in Hobs3.
  rewrite forallb_app. rewrite (observations_do_not_act _ Hobs). cbn [andb forallb].
  cbn [is_browser_action negb andb]. apply observations_do_not_act. exact Hobs3.
Qed.

(** The theorem on a turn in which the model answers in words. *)
Lemma turn_without_tool_leaves_the_page_alone_witness :
  forallb (fun e => negb (is_browser_action e))
    (fst (Scenario.play (Scenario.turn Scenario2.says_words))) = true.
Proof.
  exact (turn_without_tool_leaves_the_page_alone Scenario.lib
           (Scenario.agent (Scenario.turn Scenario2.says_words)) None
           (Scenario.world_of (Scenario.turn Scenario2.says_words)) [] eq_refl).
Defined.

Lemma report_is_final (lib : Library) (self : Agent) (message : response) (d : string)
    (w : world) (h : trace) (t : trace) (b : bool) (reply : reply) :
  report lib self message d w h = (t, Returns (b, reply)) ->
  b = true
  /\ exists text image,
       reply = ReplyMessage {| msg_role := "user";
                               msg_content_of := Parts [TextPart text; ImagePart image] |}.
Proof.
  intros E. remember (Returns (b, reply)) as r eqn:Er.
  unfold report, _get_visual_viewport, evaluate_page_script, when_debugging in E.
  run_in E; try discriminate Er; inversion Er; subst;
    (split; [reflexivity|]); do 2 eexists; reflexivity.
Qed.

(** X18.  Whatever [generate_surfer_reply] returns, it returns as final:
    the flag is always [True].  The reply is either a user message of two
    parts, a text and an image, or a plain string, and a plain string only
    when the model had selected a tool. *)
Theorem surfer_reply_is_always_final (lib : Library) (self : Agent)
    (messages : option (list chat_message)) (w : world) (h : trace)
    (b : bool) (reply : reply) :
  snd (generate_surfer_reply lib self messages w h) = Returns (b, reply) ->
  b = true
  /\ ((exists text image,
         reply = ReplyMessage {| msg_role := "user";
                                 msg_content_of := Parts [TextPart text; ImagePart image] |})
      \/ (exists msg name,
            reply = ReplyText msg
            /\ selected_tool (fst (generate_surfer_reply lib self messages w h)) = Some name)).
Proof.
  unfold generate_surfer_reply. rewrite bind_run.
  pose proof (prepare_request_silent lib self messages w h) as Hsil.
  destruct (prepare_request lib self messages w h) as [t1 [[[rs history] tools]|e]];
    cbn [fst snd] in *; [|discriminate].
  rewrite bind_run, call_run. cbn [fst snd].
  destruct (w response (h ++ t1)%list (ClientCreate history (Some tools)))
    as [message|e]; cbn [fst snd]; [|discriminate].
  cbn [app]. rewrite selected_tool_after_silence by exact Hsil.
  destruct (tool_calls message) as [|first rest] eqn:Etc.
  - rewrite after_response_without_tool_calls by exact Etc.
    destruct (report lib self message "" w _) as [t3 r3] eqn:E3. cbn [fst snd].
    intros ->. destruct (report_is_final _ _ _ _ _ _ _ _ _ E3) as [Hb Hm].
    split; [exact Hb|]. left. exact Hm.
  - unfold after_response. rewrite bind_run.
    pose proof (act_calls lib rs message w
                  ((h ++ t1) ++ [Event (ClientCreate history (Some tools)) (Returns message)])%list)
      as [_ Hv].
    destruct (act lib rs message w _) as [t2 [[d|v]|e]]; cbn [fst snd] in *;
      [| | discriminate].
    + destruct (report lib self message d w _) as [t3 r3] eqn:E3. cbn [fst snd].
      intros ->. destruct (report_is_final _ _ _ _ _ _ _ _ _ E3) as [Hb Hm].
      split; [exact Hb|]. left. exact Hm.
    + intros Hr. destruct (Hv v eq_refl) as [msg ->]. inversion Hr; subst.
      split; [reflexivity|]. right. exists msg, (fn_name first). split; reflexivity.
Qed.

(** The theorem on a turn that ends with an unknown tool. *)
Lemma surfer_reply_is_always_final_witness :
  exists msg name,
    ReplyText "Unknown tool 'open_tab'" = ReplyText msg
    /\ selected_tool (fst (Scenario.play (Scenario.turn Scenario.says_unknown))) = Some name.
Proof.
  destruct (proj2 (surfer_reply_is_always_final Scenario.lib
                     (Scenario.agent (Scenario.turn Scenario.says_unknown)) None
                     (Scenario.world_of (Scenario.turn Scenario.says_unknown)) []
                     true (ReplyText "Unknown tool 'open_tab'") eq_refl))
    as [[text [image H]] | H].
  - discriminate H.
  - exact H.
Defined.

(* ===================================================================== *)
(** ** The files a turn writes *)
(* ===================================================================== *)

Section Files.

Variable lib : Library.
Variable self : Agent.

Ltac files_step Ed :=
  lazymatch goal with
  | |- emits _ (when false _) => apply emits_ret
  | |- emits _ (call (ImageSave _ _)) =>
      apply emits_call; intros; unfold writes_only_screenshots; cbn [written_file];
      rewrite Ed, String.eqb_refl, ?orb_true_r; reflexivity
  | |- emits _ (call (FileWriteBytes _ _)) =>
      apply emits_call; intros; unfold writes_only_screenshots; cbn [written_file];
      rewrite Ed, String.eqb_refl, ?orb_true_r; reflexivity
  | |- emits _ (if ?b then _ else _) => destruct b
  | _ => emits_step
  end.

Lemma generate_surfer_reply_writes_screenshots (messages : option (list chat_message)) :
  emits (writes_only_screenshots (debug_dir self)) (generate_surfer_reply lib self messages).
Proof.
  unfold_turn.
  destruct (Py.truthy (debug_dir self)) eqn:Ed; repeat files_step Ed.
Qed.

End Files.

(** X19.  The only files a turn writes are [screenshot.png] and
    [screenshot_scaled.png] in the debug directory; an agent whose
    [debug_dir] is empty writes no file at all. *)
Theorem turn_writes_only_its_screenshots (lib : Library) (self : Agent)
    (messages : option (list chat_message)) (w : world) (h : trace)
    (e : event) (path : string) :
  In e (fst (generate_surfer_reply lib self messages w h)) ->
  written_file e = Some path ->
  debug_dir self <> ""
  /\ (path = Py.path_join (debug_dir self) "screenshot.png"
      \/ path = Py.path_join (debug_dir self) "screenshot_scaled.png").
Proof.
  intros Hin Hw.
  pose proof (generate_surfer_reply_writes_screenshots lib self messages w h) as H.
  cbn beta in H. rewrite forallb_forall in H. specialize (H e Hin).
  unfold writes_only_screenshots in H. rewrite Hw in H.
  apply andb_true_iff in H. destruct H as [Hd Hp]. split.
  - intros Hempty. rewrite Hempty in Hd. discriminate Hd.
  - apply orb_true_iff in Hp. destruct Hp as [Hp|Hp]; apply String.eqb_eq in Hp; tauto.
Qed.

(** The theorem on the first file the turn of the example writes. *)
Lemma turn_writes_only_its_screenshots_witness :
  "/tmp/surfer" <> ""
  /\ ("/tmp/surfer/screenshot.png" = Py.path_join "/tmp/surfer" "screenshot.png"
      \/ "/tmp/surfer/screenshot.png" = Py.path_join "/tmp/surfer" "screenshot_scaled.png").
Proof.
  apply (turn_writes_only_its_screenshots Scenario.lib
           (Scenario.agent (Scenario.turn Scenario.says_click)) None
           (Scenario.world_of (Scenario.turn Scenario.says_click)) []
           (Event (ImageSave (PilImage "marked page after 0 actions") "/tmp/surfer/screenshot.png")
                  (Returns tt))).
  - vm_compute. repeat (first [left; reflexivity | right]).
  - reflexivity.
Defined.

(* ===================================================================== *)
(** ** What a turn logs *)
(* ===================================================================== *)

Lemma logs_only_if_enabled_app (t1 t2 : trace) :
  logs_only_if_enabled t1 = true -> logs_only_if_enabled t2 = true ->
  logs_only_if_enabled (t1 ++ t2)%list = true.
Proof.
  unfold logs_only_if_enabled. rewrite !existsb_app.
  destruct (existsb says_logging_on t1), (existsb says_logging_on t2),
    (existsb logs_more_than_unknown_tool t1), (existsb logs_more_than_unknown_tool t2);
    simpl; intros; congruence.
Qed.

Definition keeps_the_log {A} (m : M A) : Prop :=
  sat m (fun t _ => logs_only_if_enabled t = true).

Lemma keeps_the_log_ret {A} (a : A) : keeps_the_log (ret a).
Proof. intros w h. reflexivity. Qed.

Lemma keeps_the_log_raise {A} (e : exn) : keeps_the_log (@raise A e).
Proof. intros w h. reflexivity. Qed.

Lemma keeps_the_log_lift {A} (r : result A) : keeps_the_log (lift r).
Proof. destruct r; [apply keeps_the_log_ret | apply keeps_the_log_raise]. Qed.

Lemma keeps_the_log_call {X} (op : Op X) :
  (forall r, logs_more_than_unknown_tool (Event op r) = false) -> keeps_the_log (call op).
Proof.
  intros Hop w h. simpl. unfold logs_only_if_enabled. simpl. rewrite Hop.
  apply orb_true_r.
Qed.

Lemma keeps_the_log_bind {A B} (m : M A) (k : A -> M B) :
  keeps_the_log m -> (forall a, keeps_the_log (k a)) -> keeps_the_log (bind m k).
Proof.
  intros Hm Hk. apply sat_bind with (Q1 := fun t _ => logs_only_if_enabled t = true).
  - exact Hm.
  - intros t1 a H1 w h. apply logs_only_if_enabled_app; [exact H1 | apply Hk].
  - intros t1 e H1. exact H1.
Qed.

Lemma keeps_the_log_try_except {A} (body : M A) (handler : exn -> option (M A)) :
  keeps_the_log body ->
  (forall e m, handler e = Some m -> keeps_the_log m) ->
  keeps_the_log (try_except body handler).
Proof.
  intros Hb Hh. apply sat_try_except with (Q1 := fun t _ => logs_only_if_enabled t = true).
  - exact Hb.
  - intros t1 a H1. exact H1.
  - intros t1 e H1. destruct (handler e) as [m|] eqn:E; [|exact H1].
    intros w h. apply logs_only_if_enabled_app; [exact H1 | apply (Hh _ _ E)].
Qed.

(** After [logging_enabled()] only the answer [False] matters: once it
    has answered [True], anything may be logged. *)
Lemma keeps_the_log_ask {B} (k : bool -> M B) :
  keeps_the_log (k false) -> keeps_the_log (bind (call LoggingEnabled) k).
Proof.
  intros Hk w h. rewrite bind_run, call_run. cbn [fst snd].
  destruct (w bool h LoggingEnabled) as [[|]|e]; cbn [fst snd].
  - reflexivity.
  - specialize (Hk w (h ++ [Event LoggingEnabled (Returns false)])%list).
    cbn beta in Hk. unfold logs_only_if_enabled in *. simpl. exact Hk.
  - reflexivity.
Qed.

Ltac log_step :=
  lazymatch goal with
  | |- keeps_the_log (bind (call LoggingEnabled) _) =>
      apply keeps_the_log_ask; cbv beta; cbn [when]
  | |- keeps_the_log (bind _ _) => apply keeps_the_log_bind; [| intros ]
  | |- keeps_the_log (call _) => apply keeps_the_log_call; intros; reflexivity
  | |- keeps_the_log (ret _) => apply keeps_the_log_ret
  | |- keeps_the_log (raise _) => apply keeps_the_log_raise
  | |- keeps_the_log (lift _) => apply keeps_the_log_lift
  | |- keeps_the_log (when ?b _) => destruct b; cbn [when]
  | |- keeps_the_log (try_except _ (except_all _)) =>
      apply keeps_the_log_try_except;
      [| let H := fresh in intros ? ? H; apply except_all_some in H; subst ]
  | |- keeps_the_log (try_except _ (except_TimeoutError _)) =>
      apply keeps_the_log_try_except;
      [| let H := fresh in
         intros ? ? H; apply except_TimeoutError_some in H; destruct H; subst ]
  | |- keeps_the_log (try_except _ (except_ValueError _)) =>
      apply keeps_the_log_try_except;
      [| let H := fresh in
         intros ? ? H; apply except_ValueError_some in H;
         destruct H as [? [? ?]]; subst ]
  | |- keeps_the_log (if ?b then _ else _) => destruct b
  | |- keeps_the_log (match ?x with _ => _ end) => destruct x
  end.

Lemma generate_surfer_reply_keeps_the_log (lib : Library) (self : Agent)
    (messages : option (list chat_message)) :
  keeps_the_log (generate_surfer_reply lib self messages).
Proof.
  unfold_turn. repeat log_step.
Qed.

(** X20.  Unless [logging_enabled()] has answered [True] in the course of
    the turn, the turn puts nothing in the runtime log, with one
    exception: a tool name it does not know is logged as "Unknown tool"
    without asking. *)
Theorem turn_logs_only_when_logging_is_on (lib : Library) (self : Agent)
    (messages : option (list chat_message)) (w : world) (h : trace)
    (e : event) (name : string) :
  existsb says_logging_on (fst (generate_surfer_reply lib self messages w h)) = false ->
  In e (fst (generate_surfer_reply lib self messages w h)) ->
  logged e = Some name ->
  name = "Unknown tool".
Proof.
  intros Hoff Hin Hlog.
  pose proof (generate_surfer_reply_keeps_the_log lib self messages w h) as H.
  cbn beta in H. unfold logs_only_if_enabled in H. rewrite Hoff in H. simpl in H.
  apply negb_true_iff in H.
  destruct (String.eqb_spec name "Unknown tool") as [Heq|Hne]; [exact Heq|].
  exfalso. rewrite <- not_true_iff_false in H. apply H.
  apply existsb_exists. exists e. split; [exact Hin|].
  unfold logs_more_than_unknown_tool. rewrite Hlog.
  apply negb_true_iff. apply String.eqb_neq. exact Hne.
Qed.

(** The theorem on a turn with an unknown tool, logging being off. *)
Lemma turn_logs_only_when_logging_is_on_witness :
  existsb says_logging_on (fst (Scenario.play (Scenario.turn Scenario.says_unknown))) = false
  /\ existsb (fun e => match logged e with Some _ => true | None => false end)
       (fst (Scenario.play (Scenario.turn Scenario.says_unknown))) = true
  /\ "Unknown tool" = "Unknown tool".
Proof.
  split; [reflexivity|]. split; [reflexivity|].
  apply (turn_logs_only_when_logging_is_on Scenario.lib
           (Scenario.agent (Scenario.turn Scenario.says_unknown)) None
           (Scenario.world_of (Scenario.turn Scenario.says_unknown)) []
           (Event (LogEvent "Unknown tool" [("error", "open_tab")]) (Returns tt))).
  - reflexivity.
  - vm_compute. repeat (first [left; reflexivity | right]).
  - reflexivity.
Defined.

(* ===================================================================== *)
(** ** The request sent to the model *)
(* ===================================================================== *)

Lemma clone_history_shape (lib : Library) (conversation : list chat_message) :
  List.length (clone_history lib conversation) = List.length conversation
  /\ map msg_role (clone_history lib conversation) = map msg_role conversation
  /\ map msg_content_of (clone_history lib conversation)
     = map (fun m => Text (content_str lib (msg_content_of m))) conversation.
Proof.
  unfold clone_history. rewrite length_map, !map_map. repeat split.
Qed.

(** X21.  The request a turn sends to the model holds the conversation,
    message by message in the same order and with the same roles, each
    content flattened to text by [content_str] (so that no screenshot of
    an earlier turn is sent again), followed by exactly one new message:
    the prompt about the page as it is now, with its marked screenshot.
    The conversation is the one passed in, or the one recorded for the
    sender when none is passed. *)
Theorem request_extends_the_conversation (lib : Library) (self : Agent)
    (messages : option (list chat_message)) (w : world) (h : trace)
    (rs : rects) (history : list chat_message) (tools : list Tool) :
  snd (prepare_request lib self messages w h) = Returns (rs, history, tools) ->
  let conversation := match messages with None => _oai_messages self | Some ms => ms end in
  exists url visible_rects focused names image,
    history
    = (clone_history lib conversation
       ++ [_make_mm_message lib
             (text_prompt url (text_labels rs visible_rects) (focused_hint rs focused) names)
             image])%list
    /\ List.length history = S (List.length conversation)
    /\ map msg_role (clone_history lib conversation) = map msg_role conversation
    /\ map msg_content_of (clone_history lib conversation)
       = map (fun m => Text (content_str lib (msg_content_of m))) conversation
    /\ List.length names = List.length tools.
Proof.
  intros Hr conversation.
  destruct (clone_history_shape lib conversation) as [Hlen [Hroles Hcontents]].
  destruct (prepare_request lib self messages w h) as [t r] eqn:E. cbn [snd] in Hr.
  unfold prepare_request, _get_interactive_rects, _get_visual_viewport,
    _get_focused_rect_id, evaluate_page_script, when_debugging in E.
  fold conversation in E.
  run_in E; try discriminate Hr; inversion Hr; subst;
    do 5 eexists; (split; [reflexivity|]);
    (split; [rewrite length_app, Hlen; simpl; lia|]);
    (split; [exact Hroles|]); (split; [exact Hcontents|]);
    unfold offered_tools; simpl; rewrite ?length_map; reflexivity.
Qed.

(** The theorem on the turn of the example. *)
Lemma request_extends_the_conversation_witness :
  exists url visible_rects focused names image,
    hd [] (model_requests (fst (Scenario.play (Scenario.turn Scenario.says_click))))
    = (clone_history Scenario.lib
         [ {| msg_role := "user"; msg_content_of := Text "What is on the page?" |} ]
       ++ [_make_mm_message Scenario.lib
             (text_prompt url (text_labels Scenario.one_link visible_rects)
                (focused_hint Scenario.one_link focused) names)
             image])%list
    /\ List.length
         (hd [] (model_requests (fst (Scenario.play (Scenario.turn Scenario.says_click)))))
       = 2%nat.
Proof.
  destruct (request_extends_the_conversation Scenario.lib
              (Scenario.agent (Scenario.turn Scenario.says_click)) None
              (Scenario.world_of (Scenario.turn Scenario.says_click)) []
              Scenario.one_link
              (hd [] (model_requests (fst (Scenario.play (Scenario.turn Scenario.says_click)))))
              (hd [] (tools_offered (fst (Scenario.play (Scenario.turn Scenario.says_click)))))
              eq_refl)
    as (url & visible_rects & focused & names & image & H1 & H2 & _).
  exists url, visible_rects, focused, names, image. split; [exact H1 | exact H2].
Defined.

(* ===================================================================== *)
(** ** The theorems on further worlds *)
(* ===================================================================== *)


(** The page reports no height: the final phase fails on the division. *)
Lemma report_divides_by_the_scroll_height_witness :
  snd (report Scenario.lib
         (Scenario.agent (Scenario2.turn_on_empty_page Scenario.says_click))
         Scenario.says_click "I clicked the control."
         (Scenario.world_of (Scenario2.turn_on_empty_page Scenario.says_click)) [])
  = Raises ZeroDivisionError.
Proof.
  apply (proj1 (report_divides_by_the_scroll_height Scenario.lib
                  (Scenario.agent (Scenario2.turn_on_empty_page Scenario.says_click))
                  Scenario.says_click "I clicked the control."
                  (Scenario.world_of (Scenario2.turn_on_empty_page Scenario.says_click)) []
                  {| pageTop := 0; height := 900; scrollHeight := 0 |}
                  ltac:(vm_compute; left; reflexivity) eq_refl)).
Defined.

(* ===================================================================== *)
(** ** The percentages of the viewport *)
(* ===================================================================== *)

(** X22.  For a viewport that lies within its page, the two percentages
    of the observation are between 0 and 100 and add up to at most 100.
    Truncation costs at most one point each: scrolled to the very end the
    sum is still 99 or 100, which is why everything from 99 on counts as
    the bottom; and a page that fits its viewport is always reported "at
    the top of the page", never at the bottom. *)
Theorem percentages_stay_within_the_page (vp : viewport) :
  0 <= pageTop vp -> 0 <= height vp -> 0 < scrollHeight vp ->
  pageTop vp + height vp <= scrollHeight vp ->
  exists percent_visible percent_scrolled,
    percent_of (height vp) (scrollHeight vp) = Returns percent_visible
    /\ percent_of (pageTop vp) (scrollHeight vp) = Returns percent_scrolled
    /\ 0 <= percent_visible <= 100
    /\ 0 <= percent_scrolled <= 100
    /\ percent_scrolled + percent_visible <= 100
    /\ (pageTop vp + height vp = scrollHeight vp -> 99 <= percent_scrolled + percent_visible)
    /\ (pageTop vp + height vp = scrollHeight vp -> 1 <= percent_scrolled ->
        position_text percent_scrolled percent_visible = "at the bottom of the page")
    /\ (height vp = scrollHeight vp ->
        position_text percent_scrolled percent_visible = "at the top of the page").
Proof.
  intros Htop Hheight Hpage Hwithin.
  exists (Z.quot (height vp * 100) (scrollHeight vp)),
         (Z.quot (pageTop vp * 100) (scrollHeight vp)).
  unfold percent_of. destruct (Z.eqb_spec (scrollHeight vp) 0) as [H0|_]; [lia|].
  split; [reflexivity|]. split; [reflexivity|].
  rewrite !Z.quot_div_nonneg by lia.
  pose proof (Z.mul_div_le (height vp * 100) (scrollHeight vp) Hpage) as Hv.
  pose proof (Z.mul_div_le (pageTop vp * 100) (scrollHeight vp) Hpage) as Hs.
  pose proof (Z.mul_succ_div_gt (height vp * 100) (scrollHeight vp) Hpage) as Hv'.
  pose proof (Z.mul_succ_div_gt (pageTop vp * 100) (scrollHeight vp) Hpage) as Hs'.
  pose proof (Z.div_pos (height vp * 100) (scrollHeight vp) ltac:(lia) Hpage) as Hv0.
  pose proof (Z.div_pos (pageTop vp * 100) (scrollHeight vp) ltac:(lia) Hpage) as Hs0.
  set (pv := height vp * 100 / scrollHeight vp) in *.
  set (ps := pageTop vp * 100 / scrollHeight vp) in *.
  assert (Hsum : ps + pv <= 100) by nia.
  assert (Hend : pageTop vp + height vp = scrollHeight vp -> 99 <= ps + pv) by (intros; nia).
  split; [lia|]. split; [lia|]. split; [exact Hsum|]. split; [exact Hend|]. split.
  - intros He H1. specialize (Hend He). unfold position_text.
    destruct (Z.ltb_spec ps 1); [lia|].
    destruct (Z.geb_spec (ps + pv) 99); [reflexivity | lia].
  - intros He. assert (pageTop vp = 0) by lia.
    assert (ps = 0) by (subst ps; rewrite H; reflexivity).
    unfold position_text. rewrite H0. reflexivity.
Qed.

(** The theorem on a page three screens long, scrolled to its end: the
    percentages are 66 and 33. *)
Lemma percentages_stay_within_the_page_witness :
  exists percent_visible percent_scrolled,
    percent_of 900 2700 = Returns percent_visible
    /\ percent_of 1800 2700 = Returns percent_scrolled
    /\ percent_scrolled + percent_visible <= 100
    /\ position_text percent_scrolled percent_visible = "at the bottom of the page".
Proof.
  destruct (percentages_stay_within_the_page
              {| pageTop := 1800; height := 900; scrollHeight := 2700 |}
              ltac:(simpl; lia) ltac:(simpl; lia) ltac:(simpl; lia) ltac:(simpl; lia))
    as (pv & ps & Hv & Hs & _ & _ & Hsum & _ & Hbottom & _).
  exists pv, ps. split; [exact Hv|]. split; [exact Hs|]. split; [exact Hsum|].
  apply Hbottom; [reflexivity|].
  vm_compute in Hs. inversion Hs. lia.
Defined.

(* ===================================================================== *)
(** ** The image sent to the model *)
(* ===================================================================== *)

(** X23.  The image a turn sends to the model is neither the raw
    screenshot nor the full-size marked one: one screenshot is taken,
    [add_set_of_mark] marks it with the rectangles the page answered, the
    marked image is resized to 1224 by 765, and the resized image is the
    one in the request.  On the way the marked image is closed twice and
    the resized one is not closed. *)
Theorem model_sees_the_marked_page (lib : Library) (self : Agent)
    (messages : option (list chat_message)) (w : world) (h : trace)
    (rs : rects) (history : list chat_message) (tools : list Tool) :
  let t := fst (prepare_request lib self messages w h) in
  snd (prepare_request lib self messages w h) = Returns (rs, history, tools) ->
  exists shot marked visible_rects scaled prompt,
    In (Event PageScreenshot (Returns shot)) t
    /\ List.length (filter is_screenshot t) = 1%nat
    /\ In (Event (AddSetOfMark shot rs) (Returns (marked, visible_rects))) t
    /\ In (Event (ImageResize marked 1224 765) (Returns scaled)) t
    /\ last history {| msg_role := ""; msg_content_of := Text "" |}
       = _make_mm_message lib prompt scaled
    /\ images_closed t = [marked; marked].
Proof.
  intros t Hr. subst t.
  destruct (prepare_request lib self messages w h) as [t r] eqn:E. cbn [fst snd] in *.
  unfold prepare_request, _get_interactive_rects, _get_visual_viewport,
    _get_focused_rect_id, evaluate_page_script, when_debugging in E.
  run_in E; try discriminate Hr; inversion Hr; subst;
    do 5 eexists;
    (split; [in_trace|]); (split; [reflexivity|]);
    (split; [in_trace|]); (split; [in_trace|]);
    (split; [rewrite last_last; reflexivity | reflexivity]).
Qed.

(** The theorem on the turn of the example. *)
Lemma model_sees_the_marked_page_witness :
  exists shot marked visible_rects scaled prompt,
    In (Event PageScreenshot (Returns shot))
       (fst (prepare_request Scenario.lib (Scenario.agent (Scenario.turn Scenario.says_click))
               None (Scenario.world_of (Scenario.turn Scenario.says_click)) []))
    /\ In (Event (AddSetOfMark shot Scenario.one_link) (Returns (marked, visible_rects)))
          (fst (prepare_request Scenario.lib (Scenario.agent (Scenario.turn Scenario.says_click))
                  None (Scenario.world_of (Scenario.turn Scenario.says_click)) []))
    /\ In (Event (ImageResize marked 1224 765) (Returns scaled))
          (fst (prepare_request Scenario.lib (Scenario.agent (Scenario.turn Scenario.says_click))
                  None (Scenario.world_of (Scenario.turn Scenario.says_click)) []))
    /\ last (hd [] (model_requests (fst (Scenario.play (Scenario.turn Scenario.says_click)))))
            {| msg_role := ""; msg_content_of := Text "" |}
       = _make_mm_message Scenario.lib prompt scaled.
Proof.
  destruct (model_sees_the_marked_page Scenario.lib
              (Scenario.agent (Scenario.turn Scenario.says_click)) None
              (Scenario.world_of (Scenario.turn Scenario.says_click)) []
              Scenario.one_link
              (hd [] (model_requests (fst (Scenario.play (Scenario.turn Scenario.says_click)))))
              (hd [] (tools_offered (fst (Scenario.play (Scenario.turn Scenario.says_click)))))
              eq_refl)
    as (shot & marked & visible_rects & scaled & prompt & H1 & _ & H2 & H3 & H4 & _).
  exists shot, marked, visible_rects, scaled, prompt. repeat split; assumption.
Defined.

(* ===================================================================== *)
(** ** The console and the description of the action *)
(* ===================================================================== *)




